(** * Atlas sample datasets: [atlas/datasets/sample.py]

    A shallow embedding of the two scene-preparation functions of
    [atlas/datasets/sample.py], [prepare_sample_scene] (one pose file per
    frame) and [prepare_test_scene] (one [pose.txt] table per scene), and the
    properties of the manifest ([info.json]) they write.

    Python values are modelled as follows.
    - [str] is [string]; file names and file contents are taken to be ASCII.
    - [int] is [Z].
    - A Python [float] (and a NumPy float64 or float32 element, whose
      widening to float64 is exact) is a binary64 [float]; no arithmetic is
      done on them, they are only parsed, tested with [np.isfinite] and
      copied.
    - The [dict] [poses] is a [gmap string _]; the lists [frame_ids] and
      [data['frames']] are lists, appended to at the end.
    - Reading text into numbers is NumPy's work, not this repository's: the
      conversion of one token to float32 and [np.loadtxt] on the text of a
      file are parameters of the development.
    - What the operating system answers is not this repository's work
      either: the text of a file and the listing of a directory are given
      by a [filesystem], and whether [os.makedirs] and [open(p, 'w')] go
      through is given by a [system]; both are parameters.
    - An exception is a value of [exn]; a computation threads the state of
      the outer world (standard output, directories made, documents dumped)
      and keeps it when it raises. *)

From Stdlib Require Import ZArith String Ascii List Bool Lia.
From Stdlib Require Import PrimFloat DecimalString Sorted Permutation.
From Stdlib Require Import DecimalPos DecimalN.
From stdpp Require Import base option list gmap strings sorting.

Local Open Scope Z_scope.

Set Warnings "-register-all".

(** ** Strings *)

Module Str.

Definition nl : ascii := "010"%char.
Definition space : ascii := " "%char.

(** [s.startswith(c)] and [s.endswith(c)] for a one-character [c]. *)
Definition startswith (c : ascii) (s : string) : bool :=
  match s with
  | EmptyString => false
  | String a _ => Ascii.eqb a c
  end.

Fixpoint endswith (c : ascii) (s : string) : bool :=
  match s with
  | EmptyString => false
  | String a EmptyString => Ascii.eqb a c
  | String _ s' => endswith c s'
  end.

(** [s.lstrip], [s.rstrip] and [s.strip] for the characters that satisfy
    [p]. *)
Fixpoint lstrip (p : ascii → bool) (s : string) : string :=
  match s with
  | EmptyString => EmptyString
  | String a s' => if p a then lstrip p s' else s
  end.

Fixpoint rstrip (p : ascii → bool) (s : string) : string :=
  match s with
  | EmptyString => EmptyString
  | String a s' =>
      match rstrip p s' with
      | EmptyString => if p a then EmptyString else String a EmptyString
      | r => String a r
      end
  end.

Definition strip (p : ascii → bool) (s : string) : string :=
  rstrip p (lstrip p s).

(** [s.split(sep)] for a one-character separator: every occurrence of
    [sep] ends a field, empty fields are kept, and the result is never
    empty. *)
Fixpoint split (sep : ascii) (s : string) : list string :=
  match s with
  | EmptyString => [EmptyString]
  | String a s' =>
      if Ascii.eqb a sep then EmptyString :: split sep s'
      else match split sep s' with
           | [] => [String a EmptyString]
           | w :: ws => String a w :: ws
           end
  end.

(** [s.rfind(c)]: the index of the last occurrence of [c], or [-1]. *)
Fixpoint rfind_from (c : ascii) (s : string) (i acc : Z) : Z :=
  match s with
  | EmptyString => acc
  | String a s' => rfind_from c s' (i + 1) (if Ascii.eqb a c then i else acc)
  end.

Definition rfind (c : ascii) (s : string) : Z := rfind_from c s 0 (-1).

(** [s[lo:hi]] for [0 <= lo]. *)
Definition slice (lo hi : Z) (s : string) : string :=
  String.substring (Z.to_nat lo) (Z.to_nat (hi - lo)) s.

Definition len (s : string) : Z := Z.of_nat (String.length s).

Fixpoint all (p : ascii → bool) (s : string) : bool :=
  match s with
  | EmptyString => true
  | String a s' => p a && all p s'
  end.

(** [f.readlines()] on the text of a file (after the translation of line
    ends done by text mode): every line keeps its final newline. *)
Fixpoint readlines (s : string) : list string :=
  match s with
  | EmptyString => []
  | String a s' =>
      if Ascii.eqb a nl then String a EmptyString :: readlines s'
      else match readlines s' with
           | [] => [String a EmptyString]
           | l :: ls => String a l :: ls
           end
  end.

(** ASCII white space, as [str.isspace] and [str.split()] have it. *)
Definition isspace (a : ascii) : bool :=
  let n := N_of_ascii a in
  ((9 <=? n) && (n <=? 13) || (28 <=? n) && (n <=? 32))%N.

Definition isdigit (a : ascii) : bool :=
  let n := N_of_ascii a in ((48 <=? n) && (n <=? 57))%N.

Definition digit_val (a : ascii) : Z := Z.of_N (N_of_ascii a) - 48.

End Str.

(** ** [os.path] (POSIX) *)

Module OsPath.

Definition sep : ascii := "/"%char.
Definition extsep : ascii := "."%char.

(** One step of [posixpath.join]: an absolute component replaces what came
    before it; otherwise it is appended, after a separator unless the path
    so far is empty or already ends in one. *)
Definition join2 (path b : string) : string :=
  if Str.startswith sep b then b
  else if String.eqb path EmptyString || Str.endswith sep path
       then String.append path b
       else String.append path (String sep b).

(** [os.path.join(a, *p)]. *)
Definition join (a : string) (p : list string) : string :=
  fold_left join2 p a.

(** [os.path.splitext(p)]: the extension starts at the last dot of the
    last component, unless only dots come before it there. *)
Definition splitext (p : string) : string * string :=
  let sepIndex := Str.rfind sep p in
  let dotIndex := Str.rfind extsep p in
  if sepIndex <? dotIndex then
    if Str.all (Ascii.eqb extsep) (Str.slice (sepIndex + 1) dotIndex p)
    then (p, EmptyString)
    else (Str.slice 0 dotIndex p, Str.slice dotIndex (Str.len p) p)
  else (p, EmptyString).

End OsPath.

(** ** Integers as text *)

Module PyInt.

(** The digits of an integer literal: decimal digits, with single
    underscores allowed between two digits. [seen] tells whether the
    previous character was a digit. *)
Fixpoint digits (s : string) (seen : bool) (acc : Z) : option Z :=
  match s with
  | EmptyString => if seen then Some acc else None
  | String a s' =>
      if Str.isdigit a then digits s' true (10 * acc + Str.digit_val a)
      else if Ascii.eqb a "_"%char && seen then digits s' false acc
      else None
  end.

(** The white space [int] drops around a literal: tab, line feed, vertical
    tab, form feed, carriage return and space. The separators 28 to 31 are
    white space for [str.isspace] and [str.split], not for [int]. *)
Definition isspace (a : ascii) : bool :=
  let n := N_of_ascii a in ((9 <=? n) && (n <=? 13) || (n =? 32))%N.

(** [int(s)] for a [str]: surrounding white space is dropped, one sign is
    allowed; [None] stands for [ValueError]. *)
Definition int (s : string) : option Z :=
  match Str.strip isspace s with
  | String a s' =>
      if Ascii.eqb a "-"%char then Z.opp <$> digits s' false 0
      else if Ascii.eqb a "+"%char then digits s' false 0
      else digits (String a s') false 0
  | EmptyString => None
  end.

(** The decimal digits of a natural number. *)
Definition dec (n : N) : string :=
  NilZero.string_of_uint (N.to_uint n).

(** ['%d' % n]. *)
Definition fmt_d (n : Z) : string :=
  if n <? 0 then String "-"%char (dec (Z.abs_N n)) else dec (Z.abs_N n).

Fixpoint zeros (k : nat) : string :=
  match k with
  | O => EmptyString
  | S k' => String "0"%char (zeros k')
  end.

(** ['%08d' % n]: zeros are put between the sign and the digits until the
    whole is eight characters wide; a longer number is left as it is. *)
Definition fmt_08d (n : Z) : string :=
  let d := dec (Z.abs_N n) in
  let sign := if n <? 0 then String "-"%char EmptyString else EmptyString in
  let width := (String.length sign + String.length d)%nat in
  String.append sign (String.append (zeros (8 - width)) d).

End PyInt.

(** ** NumPy arrays and JSON documents *)

(** An array of floats of dimension zero, one or two, as [np.loadtxt] can
    return. *)
Inductive ndarray :=
| Scalar (x : float)
| Vector (xs : list float)
| Matrix (rows : list (list float)).

(** [np.all(np.isfinite(a))]. *)
Definition all_isfinite (a : ndarray) : bool :=
  match a with
  | Scalar x => is_finite x
  | Vector xs => forallb is_finite xs
  | Matrix rows => forallb (forallb is_finite) rows
  end.

(** What [json.dump] is given: strings, numbers, lists and dictionaries (with
    their keys in insertion order). *)
Inductive json :=
| JString (s : string)
| JNumber (x : float)
| JArray (items : list json)
| JObject (fields : list (string * json)).

(** [a.tolist()]. *)
Definition tolist (a : ndarray) : json :=
  match a with
  | Scalar x => JNumber x
  | Vector xs => JArray (map JNumber xs)
  | Matrix rows => JArray (map (λ r, JArray (map JNumber r)) rows)
  end.

(** The dictionary [frame], before [tolist] is applied to its arrays. *)
Record frame := {
  file_name_image : string;
  intrinsics : ndarray;
  pose : ndarray;
}.

Definition json_of_frame (f : frame) : json :=
  JObject [("file_name_image"%string, JString (file_name_image f));
           ("intrinsics"%string, tolist (intrinsics f));
           ("pose"%string, tolist (pose f))].

(** The dictionary [data]. *)
Definition json_of_data (path scene : string) (frames : list frame) : json :=
  JObject [("dataset"%string, JString "sample");
           ("path"%string, JString path);
           ("scene"%string, JString scene);
           ("frames"%string, JArray (map json_of_frame frames))].

(** ** Reading a manifest back *)

(** [doc[k]] for a document that is a dictionary. *)
Definition json_get (k : string) (doc : json) : option json :=
  match doc with
  | JObject fields =>
      (λ kv : string * json, kv.2)
        <$> List.find (λ kv : string * json, String.eqb kv.1 k) fields
  | _ => None
  end.

(** The rows of a matrix as lists of numbers in a list. *)
Definition json_rows (rows : list (list float)) : json :=
  JArray (map (λ r, JArray (map JNumber r)) rows).

(** The value [j] holds the numbers of the array [a], nested as the array
    is. *)
Definition holds (j : json) (a : ndarray) : Prop :=
  match a with
  | Scalar x => j = JNumber x
  | Vector xs => j = JArray (map JNumber xs)
  | Matrix rows => j = json_rows rows
  end.

(** The element [item] of the list of frames of a document reads as the
    record [f]. *)
Definition frame_entry (f : frame) (item : json) : Prop :=
  json_get "file_name_image" item = Some (JString (file_name_image f))
  ∧ (∃ j, json_get "intrinsics" item = Some j ∧ holds j (intrinsics f))
  ∧ (∃ j, json_get "pose" item = Some j ∧ holds j (pose f)).

(** The document [doc] reads as the manifest of [scene] under [path] whose
    frames are [frames], in this order. *)
Definition manifest (doc : json) (path scene : string) (frames : list frame)
    : Prop :=
  json_get "dataset" doc = Some (JString "sample")
  ∧ json_get "path" doc = Some (JString path)
  ∧ json_get "scene" doc = Some (JString scene)
  ∧ ∃ items, json_get "frames" doc = Some (JArray items)
      ∧ Forall2 frame_entry frames items.

(** ** The outer world *)

(** The kinds of [OSError] that have a class of their own, and the others
    by their [errno]. *)
Inductive os_error :=
| FileNotFound
| NotADirectory
| IsADirectory
| FileExists
| PermissionDenied
| Errno (n : Z).

Inductive exn :=
| OSError (kind : os_error) (filename : string)
| ValueError
| IndexError
| KeyError (k : string)
| UnboundLocalError (v : string).

Definition FileNotFoundError : string → exn := OSError FileNotFound.
Definition NotADirectoryError : string → exn := OSError NotADirectory.
Definition IsADirectoryError : string → exn := OSError IsADirectory.

(** What is read: the text [open(p)] gives for the path [p] of a file, and
    the names [os.listdir(p)] gives for the path [p] of a directory. *)
Record filesystem := {
  files : gmap string string;
  listings : gmap string (list string);
}.

(** What is written: the lines printed, the directories [os.makedirs] has
    made, and the document dumped at each path. *)
Record world := {
  stdout : list string;
  made : gset string;
  dumped : gmap string json;
}.

(** What the operating system answers to the two calls that write. The
    answers may depend on what was written before, not on what was
    printed. [os.makedirs(p, exist_ok=True)] either raises, as it does for
    an empty path or a path that is a file, or makes [p] and those of its
    parents that are missing: the result gives the directories made.
    [open(p, 'w')] either raises, as it does for a path that is a
    directory, or gives a file for [json.dump] to fill. *)
Record system := {
  makedirs_result :
    gset string → gmap string json → string → os_error + gset string;
  open_w_error : gset string → gmap string json → string → option os_error;
}.

(** A step that touches nothing outside either raises or returns. *)
Definition E (A : Type) : Type := (exn + A)%type.

#[global] Instance E_ret : MRet E := λ A a, inr a.

#[global] Instance E_bind : MBind E := λ A B k m,
  match m with
  | inl e => inl e
  | inr a => k a
  end.

(** A computation runs from a world to a world and either raises or returns;
    what was done before an exception stays done. *)
Definition M (A : Type) : Type := world → world * E A.

#[global] Instance M_ret : MRet M := λ A a w, (w, inr a).

#[global] Instance M_bind : MBind M := λ A B k m w,
  match m w with
  | (w', inl e) => (w', inl e)
  | (w', inr a) => k a w'
  end.

Definition lift {A} (r : E A) : M A := λ w, (w, r).

Definition print (s : string) : M unit := λ w,
  ({| stdout := stdout w ++ [s]; made := made w; dumped := dumped w |}, inr tt).

Definition when (b : bool) (m : M unit) : M unit := if b then m else mret tt.

(** [os.makedirs(p, exist_ok=True)]. *)
Definition makedirs (os : system) (p : string) : M unit := λ w,
  match makedirs_result os (made w) (dumped w) p with
  | inl kind => (w, inl (OSError kind p))
  | inr created =>
      ({| stdout := stdout w; made := created ∪ made w; dumped := dumped w |},
       inr tt)
  end.

(** [json.dump(doc, open(p, 'w'))]. *)
Definition json_dump (os : system) (doc : json) (p : string) : M unit := λ w,
  match open_w_error os (made w) (dumped w) p with
  | Some kind => (w, inl (OSError kind p))
  | None =>
      ({| stdout := stdout w; made := made w;
          dumped := <[p := doc]> (dumped w) |},
       inr tt)
  end.

(** An optional value, with the exception its absence raises. *)
Definition try {A} (o : option A) (e : exn) : E A :=
  match o with
  | Some a => inr a
  | None => inl e
  end.

(** [open(p)] for reading, and the text read: a path that is a directory
    gives IsADirectoryError, a path that is nothing FileNotFoundError. *)
Definition read_text (fs : filesystem) (p : string) : E string :=
  try (files fs !! p)
    (match listings fs !! p with
     | Some _ => IsADirectoryError p
     | None => FileNotFoundError p
     end).

(** [os.listdir(p)], in whatever order the system gives: a path that is a
    file gives NotADirectoryError, a path that is nothing
    FileNotFoundError. *)
Definition listdir (fs : filesystem) (p : string) : E (list string) :=
  try (listings fs !! p)
    (match files fs !! p with
     | Some _ => NotADirectoryError p
     | None => FileNotFoundError p
     end).

(** A list comprehension whose body can raise. *)
Fixpoint for_each {A B} (f : A → E B) (l : list A) : E (list B) :=
  match l with
  | [] => inr []
  | a :: l' => b ← f a; bs ← for_each f l'; mret (b :: bs)
  end.

(** A [for] loop that updates its variables and can raise. *)
Fixpoint for_fold {S A} (f : S → A → E S) (st : S) (l : list A) : E S :=
  match l with
  | [] => inr st
  | a :: l' => st' ← f st a; for_fold f st' l'
  end.

(** [sorted] on a list of integers. *)
Definition sorted (l : list Z) : list Z := merge_sort Z.le l.

(** [l[lo:hi]] on a list, for [lo <= hi]. *)
Definition lslice {A} (lo hi : nat) (l : list A) : list A :=
  take (hi - lo) (drop lo l).

(** [r] rows of [c] elements each, in row-major order. *)
Fixpoint rows_of (r c : nat) (xs : list float) : list (list float) :=
  match r with
  | O => []
  | S r' => take c xs :: rows_of r' c (drop c xs)
  end.

(** [a.reshape(r, c)] on a flat array: [None] (ValueError) unless the
    array has [r * c] elements. *)
Definition reshape (r c : nat) (xs : list float) : option (list (list float)) :=
  if decide (length xs = (r * c)%nat) then Some (rows_of r c xs) else None.

(** [np.concatenate((a, b), axis=1)] and [axis=0] on lists of rows. *)
Definition concatenate1 (a b : list (list float)) : list (list float) :=
  zip_with app a b.

Definition concatenate0 (a b : list (list float)) : list (list float) :=
  a ++ b.

(** ** The two scene builders *)

Section Prepare.

(** NumPy's conversion of one string to float32; [None] is its
    ValueError. *)
Variable np_float32 : string → option float.

(** [np.loadtxt] on the text of a file; [None] is its ValueError. *)
Variable loadtxt_text : string → option ndarray.

Variable fs : filesystem.

Variable os : system.

(** [np.loadtxt(p)]. *)
Definition np_loadtxt (p : string) : E ndarray :=
  text ← read_text fs p;
  try (loadtxt_text text) ValueError.

(** [np.array(ws, np.float32)] on a list of strings. *)
Definition np_array (ws : list string) : option (list float) :=
  mapM np_float32 ws.

(** ['preparing %s' % scene] and
    ['preparing %s frame %d/%d' % (scene, i, n)]. *)
Definition msg_scene (scene : string) : string := "preparing " +:+ scene.

Definition msg_frame (scene : string) (i n : nat) : string :=
  "preparing " +:+ scene +:+ " frame " +:+ PyInt.fmt_d (Z.of_nat i)
    +:+ "/" +:+ PyInt.fmt_d (Z.of_nat n).

Definition progress (scene : string) (verbose : Z) (i n : nat) : M unit :=
  when ((1 <? verbose) && (i mod 25 =? 0)%nat) (print (msg_frame scene i n)).

(** *** Variant A: [prepare_sample_scene] *)

Definition sample_image (scene path : string) (frame_id : Z) : string :=
  OsPath.join path [scene; "color"; PyInt.fmt_08d frame_id +:+ ".jpg"].

Definition sample_pose_file (scene path : string) (frame_id : Z) : string :=
  OsPath.join path [scene; "pose"; PyInt.fmt_08d frame_id +:+ ".txt"].

(** [frame_ids], as it stands when the loop starts. *)
Definition sample_frame_ids (scene path : string) : E (list Z) :=
  names ← listdir fs (OsPath.join path [scene; "color"]);
  frame_ids ← for_each
    (λ name, try (PyInt.int (OsPath.splitext name).1) ValueError) names;
  mret (sorted frame_ids).

(** The loop over [enumerate(frame_ids)], from index [i] on; [n] is
    [len(frame_ids)] and [frames] is [data['frames']]. *)
Fixpoint sample_frames (scene path : string) (verbose : Z) (intr : ndarray)
    (n i : nat) (frame_ids : list Z) (frames : list frame) : M (list frame) :=
  match frame_ids with
  | [] => mret frames
  | frame_id :: rest =>
      progress scene verbose i n;;
      pose ← lift (np_loadtxt (sample_pose_file scene path frame_id));
      if negb (all_isfinite pose)
      then sample_frames scene path verbose intr n (S i) rest frames
      else
        let frame := {| file_name_image := sample_image scene path frame_id;
                        intrinsics := intr;
                        pose := pose |} in
        sample_frames scene path verbose intr n (S i) rest (frames ++ [frame])
  end.

Definition prepare_sample_scene (scene path path_meta : string)
    (verbose : Z) : M unit :=
  when (0 <? verbose) (print (msg_scene scene));;
  intr ← lift (np_loadtxt (OsPath.join path [scene; "intrinsics.txt"]));
  frame_ids ← lift (sample_frame_ids scene path);
  frames ← sample_frames scene path verbose intr (length frame_ids) 0
             frame_ids [];
  makedirs os (OsPath.join path_meta [scene]);;
  json_dump os (json_of_data path scene frames)
    (OsPath.join path_meta [scene; "info.json"]).

(** *** Variant B: [prepare_test_scene] *)

(** The variables the first loop assigns: the dictionary [poses], the list
    [frame_ids], and [intrinsics], unbound until a line has been read. *)
Record table := {
  poses : gmap string ndarray;
  frame_ids : list string;
  intrinsics_var : option ndarray;
}.

Definition empty_table : table :=
  {| poses := ∅; frame_ids := []; intrinsics_var := None |}.

(** [words], the fields of a line. *)
Definition line_words (line : string) : list string :=
  Str.split Str.space (Str.strip (Ascii.eqb Str.nl) line).

(** What one line yields: [words[0]], [intrinsics] and [P]. *)
Definition parse_line (line : string) : E (string * ndarray * ndarray) :=
  let words := line_words line in
  intr ← try (np_array (lslice 1 10 words) ≫= reshape 3 3) ValueError;
  R ← try (np_array (lslice 10 19 words) ≫= reshape 3 3) ValueError;
  t ← try (np_array (lslice 19 22 words) ≫= reshape 3 1) ValueError;
  let P := concatenate1 R t in
  let P := concatenate0 P [[zero; zero; zero; one]] in
  token ← try (words !! 0%nat) IndexError;
  mret (token, Matrix intr, Matrix P).

(** The body of the loop over [f.readlines()]. *)
Definition read_line (st : table) (line : string) : E table :=
  '(token, intr, P) ← parse_line line;
  mret {| poses := <[token := P]> (poses st);
          frame_ids := frame_ids st ++ [token];
          intrinsics_var := Some intr |}.

(** The block under [with open(...) as f]. *)
Definition read_table (scene path : string) : E table :=
  text ← read_text fs (OsPath.join path [scene; "pose.txt"]);
  for_fold read_line empty_table (Str.readlines text).

Definition test_image (scene path : string) (frame_id : string) : string :=
  OsPath.join path [scene; "color"; frame_id].

(** The loop over [enumerate(frame_ids)], from index [i] on. *)
Fixpoint test_frames (scene path : string) (verbose : Z) (st : table)
    (n i : nat) (ids : list string) (frames : list frame) : M (list frame) :=
  match ids with
  | [] => mret frames
  | frame_id :: rest =>
      progress scene verbose i n;;
      pose ← lift (try (poses st !! frame_id) (KeyError frame_id));
      if negb (all_isfinite pose)
      then test_frames scene path verbose st n (S i) rest frames
      else
        intr ← lift (try (intrinsics_var st) (UnboundLocalError "intrinsics"));
        let frame := {| file_name_image := test_image scene path frame_id;
                        intrinsics := intr;
                        pose := pose |} in
        test_frames scene path verbose st n (S i) rest (frames ++ [frame])
  end.

Definition prepare_test_scene (scene path path_meta : string)
    (verbose : Z) : M unit :=
  when (0 <? verbose) (print (msg_scene scene));;
  st ← lift (read_table scene path);
  frames ← test_frames scene path verbose st (length (frame_ids st)) 0
             (frame_ids st) [];
  makedirs os (OsPath.join path_meta [scene]);;
  json_dump os (json_of_data path scene frames)
    (OsPath.join path_meta [scene; "info.json"]).

End Prepare.

(** ** Concrete scenes *)

Module Scenes.

Local Open Scope string_scope.

(** The white-space separated tokens of a text, as [str.split()] without
    an argument gives them: runs of white space separate the tokens and no
    token is empty. This is the tokenization the specification words
    speak of; [prepare_test_scene] uses [Str.split] on single spaces. *)
Fixpoint ws_tokens (s : string) : list string :=
  match s with
  | EmptyString => []
  | String a s' =>
      if Str.isspace a then ws_tokens s'
      else match s' with
           | EmptyString => [String a EmptyString]
           | String b _ =>
               if Str.isspace b then String a EmptyString :: ws_tokens s'
               else match ws_tokens s' with
                    | [] => [String a EmptyString]
                    | w :: ws => String a w :: ws
                    end
           end
  end.

(** A reader of the float literals the scenes below are written with; on
    each of them it gives the float32 NumPy gives. *)
Definition lit_float32 (s : string) : option float :=
  if String.eqb s "0" then Some zero
  else if String.eqb s "1" then Some one
  else if String.eqb s "2" then Some two
  else if String.eqb s "nan" then Some nan
  else if String.eqb s "inf" then Some infinity
  else if String.eqb s "-inf" then Some neg_infinity
  else None.

(** [np.loadtxt] on a text of several rows of such literals. *)
Definition lit_loadtxt (text : string) : option ndarray :=
  Matrix <$> mapM (λ line, mapM lit_float32 (ws_tokens line))
               (Str.readlines text).

Definition w0 : world := {| stdout := []; made := ∅; dumped := ∅ |}.

(** The directories above a path: what comes before each of its
    separators, but for the root. *)
Fixpoint prefixes (pre s : string) : list string :=
  match s with
  | EmptyString => []
  | String a s' =>
      ((if Ascii.eqb a OsPath.sep && negb (String.eqb pre EmptyString)
        then [pre] else [])
       ++ prefixes (pre +:+ String a EmptyString) s')%list
  end.

Definition parents (p : string) : list string := prefixes EmptyString p.

(** A system whose directories are the ones made and whose files are the
    documents dumped. [os.makedirs] raises for the empty path, for a path
    under a document and for the path of a document, and makes the path
    and its parents otherwise, those that are not there yet;
    [open(p, 'w')] raises for the path of a directory. *)
Definition disk : system :=
  {| makedirs_result := λ made dumped p,
       if String.eqb p EmptyString then inl FileNotFound
       else if bool_decide (Exists (λ q, is_Some (dumped !! q)) (parents p))
       then inl NotADirectory
       else if bool_decide (is_Some (dumped !! p)) then inl FileExists
       else inr (list_to_set (filter (λ q, q ∉ made) (parents p ++ [p])%list));
     open_w_error := λ made dumped p,
       if bool_decide (p ∈ made) then Some IsADirectory else None |}.

Definition nl : string := String Str.nl EmptyString.

Definition eye3_txt : string :=
  "1 0 0" +:+ nl +:+ "0 1 0" +:+ nl +:+ "0 0 1" +:+ nl.
Definition eye4_txt : string :=
  "1 0 0 0" +:+ nl +:+ "0 1 0 0" +:+ nl +:+ "0 0 1 0" +:+ nl
    +:+ "0 0 0 1" +:+ nl.
Definition nan4_txt : string :=
  "1 0 0 nan" +:+ nl +:+ "0 1 0 0" +:+ nl +:+ "0 0 1 0" +:+ nl
    +:+ "0 0 0 1" +:+ nl.

Definition eye3 : ndarray :=
  Matrix [[one; zero; zero]; [zero; one; zero]; [zero; zero; one]].
Definition eye4 : ndarray :=
  Matrix [[one; zero; zero; zero]; [zero; one; zero; zero];
          [zero; zero; one; zero]; [zero; zero; zero; one]].

(** A scene of variant A under [/data/s1]: three images, listed out of
    order, the pose of frame 2 holding a NaN. *)
Definition fsA : filesystem :=
  {| files := list_to_map
       [("/data/s1/intrinsics.txt", eye3_txt);
        ("/data/s1/pose/00000001.txt", eye4_txt);
        ("/data/s1/pose/00000002.txt", nan4_txt);
        ("/data/s1/pose/00000010.txt", eye4_txt)];
     listings := list_to_map
       [("/data/s1/color", ["10.jpg"; "2.jpg"; "1.jpg"])] |}.

Definition line_f1 : string :=
  "f1 1 0 0 0 1 0 0 0 1 1 0 0 0 1 0 0 0 1 0 0 0".
Definition line_f2 : string :=
  "f2 2 0 0 0 2 0 0 0 1 1 0 0 0 1 0 0 0 1 0 0 0".
Definition line_f3_nan : string :=
  "f3 1 0 0 0 1 0 0 0 1 1 0 0 0 1 0 0 0 1 nan 0 0".

(** A scene of variant B under [/data/s2]. *)
Definition fsB (pose_txt : string) : filesystem :=
  {| files := list_to_map [("/data/s2/pose.txt", pose_txt)];
     listings := ∅ |}.

End Scenes.

(** ** What a run does *)

(** The world after some lines were printed. *)
Definition add_stdout (msgs : list string) (w : world) : world :=
  {| stdout := stdout w ++ msgs; made := made w; dumped := dumped w |}.

(** The last two statements of either builder. *)
Definition write_manifest (os : system) (dir info : string) (doc : json)
    : M unit :=
  makedirs os dir;; json_dump os doc info.

(** The directory can be made and the file opened, in the world [w]. *)
Definition writable (os : system) (w : world) (dir info : string) : Prop :=
  ∃ created, makedirs_result os (made w) (dumped w) dir = inr created
    ∧ open_w_error os (created ∪ made w) (dumped w) info = None.

(** A frame is kept when its pose is finite throughout. *)
Definition valid (f : frame) : bool := all_isfinite (pose f).

(** The progress lines of [k] turns of a loop, from index [i] on. *)
Definition progress_msgs (scene : string) (verbose : Z) (n i k : nat)
    : list string :=
  if 1 <? verbose
  then map (λ j, msg_frame scene j n)
         (filter (λ j, (j mod 25 = 0)%nat) (seq i k))
  else [].

Lemma add_stdout_nil w : add_stdout [] w = w.
Proof. destruct w; unfold add_stdout; simpl. by rewrite app_nil_r. Qed.

Lemma add_stdout_app a b w :
  add_stdout b (add_stdout a w) = add_stdout (a ++ b) w.
Proof. unfold add_stdout; simpl. by rewrite app_assoc. Qed.

Lemma progress_msgs_0 scene verbose n i : progress_msgs scene verbose n i 0 = [].
Proof. unfold progress_msgs. by destruct (1 <? verbose). Qed.

Lemma progress_msgs_S scene verbose n i k :
  progress_msgs scene verbose n i (S k)
  = progress_msgs scene verbose n i 1 ++ progress_msgs scene verbose n (S i) k.
Proof.
  unfold progress_msgs. destruct (1 <? verbose); [|done].
  rewrite <- map_app. f_equal.
  change (seq i (S k)) with ([i] ++ seq (S i) k).
  by rewrite filter_app.
Qed.

Lemma progress_msgs_silent scene verbose n i k :
  verbose <= 1 → progress_msgs scene verbose n i k = [].
Proof.
  intros Hv. unfold progress_msgs.
  destruct (Z.ltb_spec 1 verbose); [lia | done].
Qed.

Lemma progress_run scene verbose i n w :
  progress scene verbose i n w
  = (add_stdout (progress_msgs scene verbose n i 1) w, inr tt).
Proof.
  unfold progress, progress_msgs, when. cbn [seq].
  destruct (1 <? verbose); cbn [andb].
  - rewrite filter_cons, filter_nil.
    destruct (Nat.eqb_spec (i mod 25) 0) as [Hm|Hm].
    + rewrite decide_True by done. reflexivity.
    + rewrite decide_False by done. cbn [map]. by rewrite add_stdout_nil.
  - by rewrite add_stdout_nil.
Qed.

Lemma bind_run {A B} (m : M A) (k : A → M B) w :
  (m ≫= k) w
  = match m w with
    | (w', inl e) => (w', inl e)
    | (w', inr a) => k a w'
    end.
Proof. done. Qed.

Lemma E_bind_inr {A B} (a : A) (k : A → E B) : (inr a ≫= k) = k a.
Proof. done. Qed.

(** Writing the manifest: [os.makedirs] raises and nothing is changed, or
    [open] raises and the directory stays made, or the document is
    dumped. *)
Lemma write_manifest_run os dir info doc w :
  write_manifest os dir info doc w
  = match makedirs_result os (made w) (dumped w) dir with
    | inl kind => (w, inl (OSError kind dir))
    | inr created =>
        match open_w_error os (created ∪ made w) (dumped w) info with
        | Some kind =>
            ({| stdout := stdout w; made := created ∪ made w;
                dumped := dumped w |}, inl (OSError kind info))
        | None =>
            ({| stdout := stdout w; made := created ∪ made w;
                dumped := <[info := doc]> (dumped w) |}, inr tt)
        end
    end.
Proof.
  unfold write_manifest. rewrite bind_run. unfold makedirs.
  destruct (makedirs_result os (made w) (dumped w) dir) as [kind|created];
    [done|].
  unfold json_dump. cbn [made dumped stdout].
  by destruct (open_w_error os (created ∪ made w) (dumped w) info).
Qed.

(** What was printed before plays no part in it. *)
Lemma write_manifest_stdout os dir info doc msgs w :
  write_manifest os dir info doc (add_stdout msgs w)
  = (add_stdout msgs (write_manifest os dir info doc w).1,
     (write_manifest os dir info doc w).2).
Proof.
  rewrite !write_manifest_run. cbn [add_stdout made dumped stdout].
  destruct (makedirs_result os (made w) (dumped w) dir) as [kind|created];
    [done|].
  by destruct (open_w_error os (created ∪ made w) (dumped w) info).
Qed.

Lemma write_manifest_returns os dir info doc w w' :
  write_manifest os dir info doc w = (w', inr tt) →
  writable os w dir info ∧ dumped w' = <[info := doc]> (dumped w)
  ∧ stdout w' = stdout w.
Proof.
  rewrite write_manifest_run. unfold writable.
  destruct (makedirs_result os (made w) (dumped w) dir) as [kind|created];
    [done|].
  destruct (open_w_error os (created ∪ made w) (dumped w) info) eqn:Hopen;
    [done|].
  intros [= <-]. split; [by exists created|done].
Qed.

Lemma write_manifest_writable os dir info doc w :
  writable os w dir info →
  ∃ w', write_manifest os dir info doc w = (w', inr tt)
    ∧ dumped w' = <[info := doc]> (dumped w) ∧ stdout w' = stdout w.
Proof.
  intros (created & Hdir & Hopen). rewrite write_manifest_run, Hdir, Hopen.
  by eexists.
Qed.

(** When writing raises, it is with an [OSError], and no document is
    changed. *)
Lemma write_manifest_raises os dir info doc w w' e :
  write_manifest os dir info doc w = (w', inl e) →
  (∃ kind p, e = OSError kind p) ∧ dumped w' = dumped w
  ∧ stdout w' = stdout w.
Proof.
  rewrite write_manifest_run.
  destruct (makedirs_result os (made w) (dumped w) dir) as [kind|created].
  - intros [= <- <-]. split; [by eexists _, _|done].
  - destruct (open_w_error os (created ∪ made w) (dumped w) info) as [kind|];
      [|done].
    intros [= <- <-]. split; [by eexists _, _|done].
Qed.

(** A document the builders write reads as the manifest of its frames. *)
Lemma holds_tolist a : holds (tolist a) a.
Proof. by destruct a. Qed.

Lemma json_of_frame_entry f : frame_entry f (json_of_frame f).
Proof.
  split; [done|]. split; eexists; (split; [done|apply holds_tolist]).
Qed.

Lemma json_of_data_manifest path scene frames :
  manifest (json_of_data path scene frames) path scene frames
  ∧ json_get "frames" (json_of_data path scene frames)
    = Some (JArray (map json_of_frame frames)).
Proof.
  split; [|done]. do 3 (split; [done|]).
  exists (map json_of_frame frames). split; [done|].
  apply Forall2_fmap_r, Forall_Forall2_diag, Forall_forall.
  intros f _. apply json_of_frame_entry.
Qed.

Section Runs.

Variable np_float32 : string → option float.
Variable loadtxt_text : string → option ndarray.
Variable fs : filesystem.
Variable os : system.

(** *** Variant A *)

(** The frame records the loop of variant A builds, one for each
    identifier, before their poses are tested. *)
Definition sample_records (scene path : string) (intr : ndarray)
    (ids : list Z) : E (list frame) :=
  for_each (λ frame_id,
    pose ← np_loadtxt loadtxt_text fs (sample_pose_file scene path frame_id);
    mret {| file_name_image := sample_image scene path frame_id;
            intrinsics := intr; pose := pose |}) ids.

Lemma sample_frames_run scene path verbose intr n ids : ∀ i frames w,
  ∃ k, (k ≤ length ids)%nat ∧
    sample_frames loadtxt_text fs scene path verbose intr n i ids frames w
    = (add_stdout (progress_msgs scene verbose n i k) w,
       match sample_records scene path intr ids with
       | inl e => inl e
       | inr rs => inr (frames ++ filter (λ f, valid f = true) rs)
       end) ∧
    (∀ rs, sample_records scene path intr ids = inr rs → k = length ids).
Proof.
  induction ids as [|frame_id rest IH]; intros i frames w.
  - exists 0%nat. split; [done|]. split; [|done].
    cbn. by rewrite progress_msgs_0, add_stdout_nil, app_nil_r.
  - cbn [sample_frames sample_records for_each].
    unfold mbind at 1 2. unfold M_bind at 1 2. rewrite progress_run.
    unfold lift, mbind at 1, E_bind at 1.
    destruct (np_loadtxt loadtxt_text fs (sample_pose_file scene path frame_id))
      as [e|pose] eqn:Hpose.
    + exists 1%nat. split; [cbn; lia|]. split; [done|]. intros rs; discriminate.
    + fold (sample_records scene path intr rest).
      set (f := {| file_name_image := sample_image scene path frame_id;
                   intrinsics := intr; pose := pose |}).
      destruct (all_isfinite pose) eqn:Hfin; cbn [negb].
      * destruct (IH (S i) (frames ++ [f])
                    (add_stdout (progress_msgs scene verbose n i 1) w))
          as (k & Hk & Hrun & Hall).
        exists (S k). split; [cbn; lia|].
        rewrite Hrun, add_stdout_app, <- progress_msgs_S.
        unfold mbind, E_bind, mret, E_ret.
        destruct (sample_records scene path intr rest) as [e|rs]; split;
          try done.
        -- rewrite filter_cons, decide_True by done. by rewrite <- app_assoc.
        -- intros ? _. cbn. f_equal. eauto.
      * destruct (IH (S i) frames
                    (add_stdout (progress_msgs scene verbose n i 1) w))
          as (k & Hk & Hrun & Hall).
        exists (S k). split; [cbn; lia|].
        rewrite Hrun, add_stdout_app, <- progress_msgs_S.
        unfold mbind, E_bind, mret, E_ret.
        destruct (sample_records scene path intr rest) as [e|rs]; split;
          try done.
        -- rewrite filter_cons, decide_False; [done|].
           unfold valid; cbn. by rewrite Hfin.
        -- intros ? _. cbn. f_equal. eauto.
Qed.

(** The records of a whole scene of variant A. *)
Definition sample_candidates (scene path : string) : E (list frame) :=
  intr ← np_loadtxt loadtxt_text fs (OsPath.join path [scene; "intrinsics.txt"]);
  frame_ids ← sample_frame_ids fs scene path;
  sample_records scene path intr frame_ids.

Definition info_dir (path_meta scene : string) : string :=
  OsPath.join path_meta [scene].

Definition info_json (path_meta scene : string) : string :=
  OsPath.join path_meta [scene; "info.json"].

(** What a run prints, where it ends, and what it leaves behind, told
    from the records [r] the scene gives. *)
Definition outcome (scene path path_meta : string) (verbose : Z)
    (r : E (list frame)) (msgs : list string) (w : world) : world * E unit :=
  match r with
  | inl e => (add_stdout msgs w, inl e)
  | inr rs =>
      write_manifest os (info_dir path_meta scene) (info_json path_meta scene)
        (json_of_data path scene (filter (λ f, valid f = true) rs))
        (add_stdout msgs w)
  end.

Definition scene_msgs (scene : string) (verbose : Z) : list string :=
  if 0 <? verbose then [msg_scene scene] else [].

(** What is known of the lines printed: the line of the scene first, then
    progress lines of the loop, all of them when the run ends well. *)
Definition printed (scene : string) (verbose : Z) (r : E (list frame))
    (msgs : list string) : Prop :=
  ∃ n k, msgs = scene_msgs scene verbose ++ progress_msgs scene verbose n 0 k
    ∧ ∀ rs, r = inr rs → n = length rs ∧ k = length rs.

Lemma for_each_length {A B} (f : A → E B) l bs :
  for_each f l = inr bs → length bs = length l.
Proof.
  revert bs. induction l as [|a l IH]; intros bs; cbn.
  - by intros [= <-].
  - unfold mbind, E_bind, mret, E_ret.
    destruct (f a); [done|]. destruct (for_each f l); [done|].
    intros [= <-]. cbn. f_equal. by apply IH.
Qed.

Lemma sample_records_length scene path intr ids rs :
  sample_records scene path intr ids = inr rs → length rs = length ids.
Proof. apply for_each_length. Qed.

Lemma when_print_run scene verbose w :
  when (0 <? verbose) (print (msg_scene scene)) w
  = (add_stdout (scene_msgs scene verbose) w, inr tt).
Proof.
  unfold when, scene_msgs. destruct (0 <? verbose); [done|].
  by rewrite add_stdout_nil.
Qed.

Theorem prepare_sample_scene_run scene path path_meta verbose w :
  ∃ msgs, printed scene verbose (sample_candidates scene path) msgs ∧
    prepare_sample_scene loadtxt_text fs os scene path path_meta verbose w
    = outcome scene path path_meta verbose (sample_candidates scene path)
        msgs w.
Proof.
  unfold prepare_sample_scene, sample_candidates, outcome, printed.
  unfold write_manifest, info_dir, info_json.
  rewrite bind_run, when_print_run, bind_run. unfold lift.
  destruct (np_loadtxt _ _ _) as [e|intr].
  { exists (scene_msgs scene verbose). split; [|done].
    exists 0%nat, 0%nat. by rewrite progress_msgs_0, app_nil_r. }
  rewrite bind_run.
  destruct (sample_frame_ids fs scene path) as [e|ids].
  { exists (scene_msgs scene verbose). split; [|done].
    exists 0%nat, 0%nat. by rewrite progress_msgs_0, app_nil_r. }
  destruct (sample_frames_run scene path verbose intr (length ids) ids 0%nat []
              (add_stdout (scene_msgs scene verbose) w))
    as (k & Hk & Hrun & Hall).
  rewrite bind_run, Hrun, add_stdout_app, !E_bind_inr.
  exists (scene_msgs scene verbose
            ++ progress_msgs scene verbose (length ids) 0 k).
  split.
  - exists (length ids), k. split; [done|]. intros rs Hrs.
    rewrite (sample_records_length _ _ _ _ _ Hrs). split; [done|]. eauto.
  - destruct (sample_records scene path intr ids) as [e|rs]; done.
Qed.

(** *** Variant B *)

Definition token_of (x : string * ndarray * ndarray) : string := x.1.1.
Definition intr_of (x : string * ndarray * ndarray) : ndarray := x.1.2.
Definition pose_of (x : string * ndarray * ndarray) : ndarray := x.2.

(** The assignments at the end of the body of the first loop. *)
Definition add_line (st : table) (x : string * ndarray * ndarray) : table :=
  {| poses := <[token_of x := pose_of x]> (poses st);
     frame_ids := frame_ids st ++ [token_of x];
     intrinsics_var := Some (intr_of x) |}.

(** The pose of the last of the lines that bear a token. *)
Definition last_pose (parsed : list (string * ndarray * ndarray))
    (token : string) : option ndarray :=
  pose_of <$> last (filter (λ x, token_of x = token) parsed).

Lemma for_fold_read_line lines : ∀ st,
  for_fold (read_line np_float32) st lines
  = (parsed ← for_each (parse_line np_float32) lines;
     mret (fold_left add_line parsed st)).
Proof.
  induction lines as [|line lines IH]; intros st; [done|].
  cbn [for_fold for_each]. unfold read_line.
  unfold mbind at 1 2 3 4. unfold E_bind at 1 2 3 4.
  destruct (parse_line np_float32 line) as [e|[[token intr] P]]; [done|].
  cbn [mret E_ret]. rewrite IH.
  unfold mbind, E_bind.
  by destruct (for_each (parse_line np_float32) lines).
Qed.

Lemma frame_ids_fold parsed : ∀ st,
  frame_ids (fold_left add_line parsed st)
  = frame_ids st ++ map token_of parsed.
Proof.
  induction parsed as [|x parsed IH]; intros st; cbn.
  - by rewrite app_nil_r.
  - rewrite IH. cbn. by rewrite <- app_assoc.
Qed.

Lemma intrinsics_var_fold parsed : ∀ st,
  intrinsics_var (fold_left add_line parsed st)
  = match last parsed with
    | Some x => Some (intr_of x)
    | None => intrinsics_var st
    end.
Proof.
  induction parsed as [|x parsed IH]; intros st; [done|].
  cbn [fold_left]. rewrite IH.
  rewrite (last_cons x). by destruct (last parsed).
Qed.

Lemma poses_fold parsed token : ∀ st,
  poses (fold_left add_line parsed st) !! token
  = match last_pose parsed token with
    | Some P => Some P
    | None => poses st !! token
    end.
Proof.
  unfold last_pose.
  induction parsed as [|x parsed IH]; intros st; [done|].
  cbn [fold_left]. rewrite IH, filter_cons.
  destruct (decide (token_of x = token)) as [Heq|Hne].
  - rewrite last_cons.
    destruct (last (filter _ parsed)); [done|].
    cbn. rewrite <- Heq. apply lookup_insert_eq.
  - destruct (last (filter _ parsed)); [done|].
    cbn. by apply lookup_insert_ne.
Qed.

Lemma last_pose_is_Some parsed x :
  x ∈ parsed → is_Some (last_pose parsed (token_of x)).
Proof.
  intros Hx. unfold last_pose.
  assert (Hin : x ∈ filter (λ y, token_of y = token_of x) parsed)
    by (apply list_elem_of_filter; done).
  destruct (filter _ parsed) as [|y l] eqn:Hl using rev_ind.
  - by apply not_elem_of_nil in Hin.
  - rewrite last_snoc. by eexists.
Qed.

(** The frame records the second loop of variant B builds, one for each
    entry of [frame_ids], before their poses are tested. *)
Definition test_records (scene path : string) (st : table)
    (ids : list string) : list frame :=
  omap (λ frame_id,
    pose ← poses st !! frame_id;
    intr ← intrinsics_var st;
    Some {| file_name_image := test_image scene path frame_id;
            intrinsics := intr; pose := pose |}) ids.

Lemma test_frames_run scene path verbose st n intr ids :
  intrinsics_var st = Some intr →
  (∀ id, id ∈ ids → is_Some (poses st !! id)) →
  ∀ i frames w,
    test_frames scene path verbose st n i ids frames w
    = (add_stdout (progress_msgs scene verbose n i (length ids)) w,
       inr (frames ++ filter (λ f, valid f = true)
                        (test_records scene path st ids))).
Proof.
  intros Hintr. induction ids as [|frame_id rest IH]; intros Hposes i frames w.
  - cbn. by rewrite progress_msgs_0, add_stdout_nil, app_nil_r.
  - assert (Hrest : ∀ id, id ∈ rest → is_Some (poses st !! id))
      by (intros; apply Hposes; by right).
    destruct (Hposes frame_id) as [pose Hpose]; [by left|].
    assert (Hrec : test_records scene path st (frame_id :: rest)
                   = {| file_name_image := test_image scene path frame_id;
                        intrinsics := intr; pose := pose |}
                       :: test_records scene path st rest).
    { unfold test_records. cbn [omap list_omap]. by rewrite Hpose, Hintr. }
    rewrite Hrec. cbn [test_frames length].
    unfold mbind at 1 2. unfold M_bind at 1 2. rewrite progress_run.
    unfold lift. rewrite Hpose, Hintr. cbn [try].
    rewrite (progress_msgs_S scene verbose n i (length rest)).
    rewrite <- add_stdout_app.
    destruct (all_isfinite pose) eqn:Hfin; cbn [negb].
    + unfold mbind at 1, M_bind at 1.
      rewrite (IH Hrest), filter_cons, decide_True by done.
      by rewrite <- app_assoc.
    + rewrite (IH Hrest), filter_cons, decide_False; [done|].
      unfold valid; cbn. by rewrite Hfin.
Qed.

(** The table the first loop leaves, from the lines it parsed. *)
Definition table_of (parsed : list (string * ndarray * ndarray)) : table :=
  fold_left add_line parsed empty_table.

Lemma frame_ids_table parsed :
  frame_ids (table_of parsed) = map token_of parsed.
Proof. unfold table_of. by rewrite frame_ids_fold. Qed.

Lemma intrinsics_var_table parsed :
  intrinsics_var (table_of parsed) = intr_of <$> last parsed.
Proof.
  unfold table_of. rewrite intrinsics_var_fold. by destruct (last parsed).
Qed.

Lemma poses_table parsed token :
  poses (table_of parsed) !! token = last_pose parsed token.
Proof.
  unfold table_of. rewrite poses_fold.
  by destruct (last_pose parsed token).
Qed.

(** The lines of [pose.txt], parsed. *)
Definition parsed_lines (scene path : string)
    : E (list (string * ndarray * ndarray)) :=
  text ← read_text fs (OsPath.join path [scene; "pose.txt"]);
  for_each (parse_line np_float32) (Str.readlines text).

Lemma read_table_parsed scene path :
  read_table np_float32 fs scene path
  = (parsed ← parsed_lines scene path; mret (table_of parsed)).
Proof.
  unfold read_table, parsed_lines, mbind, E_bind.
  destruct (read_text fs _); [done|]. by rewrite for_fold_read_line.
Qed.

(** One record for each parsed line, in line order: its image is named by
    the token of the line, its pose is the pose of the last line that
    bears this token, its intrinsics are those of the last line of all. *)
Lemma test_records_table scene path parsed :
  Forall2 (λ x f,
      file_name_image f = test_image scene path (token_of x)
      ∧ last_pose parsed (token_of x) = Some (pose f)
      ∧ intr_of <$> last parsed = Some (intrinsics f))
    parsed
    (test_records scene path (table_of parsed) (frame_ids (table_of parsed))).
Proof.
  rewrite frame_ids_table.
  assert (Hgen : ∀ l, (∀ x, x ∈ l → x ∈ parsed) →
    Forall2 (λ x f,
        file_name_image f = test_image scene path (token_of x)
        ∧ last_pose parsed (token_of x) = Some (pose f)
        ∧ intr_of <$> last parsed = Some (intrinsics f))
      l (test_records scene path (table_of parsed) (map token_of l))).
  { induction l as [|x l IH]; intros Hsub; [constructor|].
    destruct (last_pose_is_Some parsed x) as [P HP]; [apply Hsub; by left|].
    destruct (last parsed) as [y|] eqn:Hlast.
    - assert (Hrec : test_records scene path (table_of parsed)
                       (map token_of (x :: l))
                     = {| file_name_image := test_image scene path (token_of x);
                          intrinsics := intr_of y; pose := P |}
                         :: test_records scene path (table_of parsed)
                              (map token_of l)).
      { unfold test_records. cbn [map omap list_omap].
        by rewrite poses_table, HP, intrinsics_var_table, Hlast. }
      rewrite Hrec. constructor; [done|].
      apply IH. intros; apply Hsub; by right.
    - apply last_None in Hlast. subst parsed.
      exfalso. eapply not_elem_of_nil, Hsub. by left. }
  by apply Hgen.
Qed.

(** The records of a whole scene of variant B. *)
Definition test_candidates (scene path : string) : E (list frame) :=
  st ← read_table np_float32 fs scene path;
  mret (test_records scene path st (frame_ids st)).

Theorem prepare_test_scene_run scene path path_meta verbose w :
  ∃ msgs, printed scene verbose (test_candidates scene path) msgs ∧
    prepare_test_scene np_float32 fs os scene path path_meta verbose w
    = outcome scene path path_meta verbose (test_candidates scene path)
        msgs w.
Proof.
  unfold prepare_test_scene, test_candidates, outcome, printed.
  unfold write_manifest, info_dir, info_json.
  rewrite bind_run, when_print_run, bind_run. unfold lift.
  destruct (read_table np_float32 fs scene path) as [e|st] eqn:Htab.
  { exists (scene_msgs scene verbose). split; [|done].
    exists 0%nat, 0%nat. by rewrite progress_msgs_0, app_nil_r. }
  rewrite read_table_parsed in Htab.
  destruct (parsed_lines scene path) as [e|parsed]; [done|].
  injection Htab as <-.
  pose proof (test_records_table scene path parsed) as Hrec.
  apply Forall2_length in Hrec.
  assert (Hn : length (frame_ids (table_of parsed)) = length parsed)
    by (by rewrite frame_ids_table, length_map).
  exists (scene_msgs scene verbose
            ++ progress_msgs scene verbose (length parsed) 0 (length parsed)).
  split.
  { exists (length parsed), (length parsed). split; [done|].
    intros rs [= <-]. by rewrite <- Hrec. }
  rewrite bind_run, Hn.
  assert (Hloop : test_frames scene path verbose (table_of parsed)
                    (length parsed) 0 (frame_ids (table_of parsed)) []
                    (add_stdout (scene_msgs scene verbose) w)
                  = (add_stdout (progress_msgs scene verbose (length parsed) 0
                                   (length parsed))
                       (add_stdout (scene_msgs scene verbose) w),
                     inr (filter (λ f, valid f = true)
                            (test_records scene path (table_of parsed)
                               (frame_ids (table_of parsed)))))).
  { destruct (last parsed) as [x|] eqn:Hlast.
    - erewrite test_frames_run.
      + by rewrite Hn.
      + by rewrite intrinsics_var_table, Hlast.
      + intros id Hid. rewrite frame_ids_table in Hid.
        apply list_elem_of_fmap in Hid as (y & -> & Hy).
        rewrite poses_table. by apply last_pose_is_Some.
    - apply last_None in Hlast. subst parsed. cbn.
      by rewrite progress_msgs_0, add_stdout_nil. }
  rewrite Hloop, add_stdout_app. done.
Qed.

(** *** Either variant *)

Inductive variant := PerFrameFiles | PoseTable.

Definition prepare (v : variant) : string → string → string → Z → M unit :=
  match v with
  | PerFrameFiles => prepare_sample_scene loadtxt_text fs os
  | PoseTable => prepare_test_scene np_float32 fs os
  end.

Definition candidates (v : variant) : string → string → E (list frame) :=
  match v with
  | PerFrameFiles => sample_candidates
  | PoseTable => test_candidates
  end.

Theorem prepare_run v scene path path_meta verbose w :
  ∃ msgs, printed scene verbose (candidates v scene path) msgs ∧
    prepare v scene path path_meta verbose w
    = outcome scene path path_meta verbose (candidates v scene path) msgs w.
Proof.
  destruct v; [apply prepare_sample_scene_run | apply prepare_test_scene_run].
Qed.

(** When a run has ended well, the scene gave its records and the manifest
    could be written. *)
Lemma prepare_returns v scene path path_meta verbose w w' :
  prepare v scene path path_meta verbose w = (w', inr tt) →
  ∃ records, candidates v scene path = inr records
    ∧ dumped w' = <[info_json path_meta scene :=
                      json_of_data path scene
                        (filter (λ f, valid f = true) records)]> (dumped w)
    ∧ writable os w (info_dir path_meta scene) (info_json path_meta scene).
Proof.
  destruct (prepare_run v scene path path_meta verbose w) as (msgs & _ & ->).
  unfold outcome. destruct (candidates v scene path) as [e|rs]; [done|].
  rewrite write_manifest_stdout.
  destruct (write_manifest os _ _ _ w) as [w1 r] eqn:Hw. destruct r as [e|[]];
    [done|].
  apply write_manifest_returns in Hw as (Hok & Hd & _).
  intros [= <-]. by exists rs.
Qed.

Lemma prepare_candidates v scene path path_meta verbose w records :
  candidates v scene path = inr records →
  writable os w (info_dir path_meta scene) (info_json path_meta scene) →
  ∃ w', prepare v scene path path_meta verbose w = (w', inr tt)
    ∧ dumped w' = <[info_json path_meta scene :=
                      json_of_data path scene
                        (filter (λ f, valid f = true) records)]> (dumped w).
Proof.
  intros Hc Hok.
  destruct (prepare_run v scene path path_meta verbose w) as (msgs & _ & ->).
  unfold outcome. rewrite Hc, write_manifest_stdout.
  destruct (write_manifest_writable os _ _
              (json_of_data path scene (filter (λ f, valid f = true) records))
              w Hok) as (w1 & -> & Hd & _).
  by eexists.
Qed.

Lemma prepare_raises v scene path path_meta verbose w e :
  candidates v scene path = inl e →
  ∃ w', prepare v scene path path_meta verbose w = (w', inl e)
    ∧ dumped w' = dumped w ∧ made w' = made w.
Proof.
  intros Hc.
  destruct (prepare_run v scene path path_meta verbose w) as (msgs & _ & ->).
  unfold outcome. rewrite Hc. cbn. eauto.
Qed.

(** The document a run that ended well has left, read back. *)
Lemma prepare_manifest v scene path path_meta verbose w w' :
  prepare v scene path path_meta verbose w = (w', inr tt) →
  ∃ records doc,
    candidates v scene path = inr records
    ∧ dumped w' !! info_json path_meta scene = Some doc
    ∧ manifest doc path scene (filter (λ f, valid f = true) records)
    ∧ json_get "frames" doc
      = Some (JArray (map json_of_frame
                        (filter (λ f, valid f = true) records))).
Proof.
  intros (records & Hc & Hd & _)%prepare_returns.
  exists records, (json_of_data path scene
                     (filter (λ f, valid f = true) records)).
  split; [done|]. split; [by rewrite Hd, lookup_insert_eq|].
  apply json_of_data_manifest.
Qed.

(** The lines printed before the manifest is written are only carried
    along. *)
Lemma outcome_stdout scene path path_meta verbose r msgs w :
  outcome scene path path_meta verbose r msgs w
  = (add_stdout msgs (outcome scene path path_meta verbose r [] w).1,
     (outcome scene path path_meta verbose r [] w).2).
Proof.
  unfold outcome. destruct r as [e|rs]; cbn [fst snd].
  - by rewrite add_stdout_nil.
  - by rewrite write_manifest_stdout, add_stdout_nil.
Qed.

Lemma outcome_quiet scene path path_meta verbose r w :
  stdout (outcome scene path path_meta verbose r [] w).1 = stdout w.
Proof.
  unfold outcome. rewrite add_stdout_nil. destruct r as [e|rs]; [done|].
  rewrite write_manifest_run.
  destruct (makedirs_result os (made w) (dumped w) _) as [kind|created];
    [done|].
  by destruct (open_w_error os (created ∪ made w) (dumped w) _).
Qed.

(** *** Finite poses *)

Definition elements (a : ndarray) : list float :=
  match a with
  | Scalar x => [x]
  | Vector xs => xs
  | Matrix rows => concat rows
  end.

(** An array has an element that is NaN or infinite. *)
Definition has_nonfinite (a : ndarray) : Prop :=
  ∃ x, x ∈ elements a ∧ (is_nan x = true ∨ is_infinity x = true).

Lemma is_finite_false x :
  is_finite x = false ↔ is_nan x = true ∨ is_infinity x = true.
Proof.
  unfold is_finite. destruct (is_nan x), (is_infinity x); cbn; intuition congruence.
Qed.

Lemma all_isfinite_elements a :
  all_isfinite a = forallb is_finite (elements a).
Proof.
  destruct a as [x|xs|rows]; cbn.
  - by rewrite andb_true_r.
  - done.
  - induction rows as [|r rows IH]; [done|].
    cbn. by rewrite forallb_app, IH.
Qed.

Lemma all_isfinite_false a : all_isfinite a = false ↔ has_nonfinite a.
Proof.
  rewrite all_isfinite_elements. unfold has_nonfinite.
  induction (elements a) as [|x l IH]; cbn.
  - split; [done|]. intros (x & Hx & _). by apply not_elem_of_nil in Hx.
  - rewrite andb_false_iff, IH, is_finite_false. split.
    + intros [Hx|(y & Hy & Hbad)].
      * exists x. split; [by left|done].
      * exists y. split; [by right|done].
    + intros (y & Hy & Hbad). apply elem_of_cons in Hy as [->|Hy].
      * by left.
      * right. by exists y.
Qed.

Lemma valid_true f : valid f = true ↔ ¬ has_nonfinite (pose f).
Proof.
  rewrite <- all_isfinite_false. unfold valid.
  by destruct (all_isfinite (pose f)).
Qed.

(** C1. In either variant, when a run ends well the manifest holds the
    records of the scene whose pose is finite throughout, in the order the
    loop built them: a record with a NaN or an infinity in its pose is left
    out, the ones after it are still taken, and every frame of the manifest
    has a finite pose. *)
Theorem C1_manifest_poses_finite v scene path path_meta verbose w w' :
  prepare v scene path path_meta verbose w = (w', inr tt) →
  ∃ records frames,
    candidates v scene path = inr records
    ∧ dumped w' !! info_json path_meta scene
      = Some (json_of_data path scene frames)
    ∧ frames = filter (λ f, valid f = true) records
    ∧ (∀ f, f ∈ frames ↔ f ∈ records ∧ ¬ has_nonfinite (pose f))
    ∧ Forall (λ f, all_isfinite (pose f) = true) frames.
Proof.
  intros (records & Hc & Hd & _)%prepare_returns.
  exists records, (filter (λ f, valid f = true) records).
  split; [done|]. split; [by rewrite Hd, lookup_insert_eq|].
  split; [done|]. split.
  - intros f. rewrite list_elem_of_filter, valid_true. tauto.
  - apply Forall_forall. by intros f [Hf _]%list_elem_of_filter.
Qed.

(** *** What a scene that reads well holds *)

Lemma for_each_Forall2 {A B} (f : A → E B) l bs :
  for_each f l = inr bs ↔ Forall2 (λ a b, f a = inr b) l bs.
Proof.
  revert bs. induction l as [|a l IH]; intros bs; cbn.
  - split; [intros [= <-]; constructor | by intros ->%Forall2_nil_inv_l].
  - unfold mbind, E_bind, mret, E_ret. split.
    + destruct (f a) as [|b] eqn:Hb; [done|].
      destruct (for_each f l) as [|bs'] eqn:Hbs; [done|].
      intros [= <-]. constructor; [done|]. by apply IH.
    + intros (b & bs' & Hb & Hbs & ->)%Forall2_cons_inv_l.
      rewrite Hb. apply IH in Hbs. by rewrite Hbs.
Qed.

Lemma for_each_raises {A B} (f : A → E B) l a e :
  a ∈ l → f a = inl e → ∃ e', for_each f l = inl e'.
Proof.
  intros Ha Hf. destruct (for_each f l) as [e'|bs] eqn:Hl; [by eexists|].
  apply for_each_Forall2 in Hl.
  apply list_elem_of_lookup in Ha as [i Hi].
  destruct (Forall2_lookup_l _ _ _ _ _ Hl Hi) as (b & _ & Hb). congruence.
Qed.

Lemma for_each_inl {A B} (f : A → E B) l e :
  for_each f l = inl e → ∃ a, a ∈ l ∧ f a = inl e.
Proof.
  induction l as [|a l IH]; cbn; [done|].
  unfold mbind, E_bind, mret, E_ret.
  destruct (f a) as [e'|b] eqn:Hb.
  - intros [= ->]. exists a. split; [by left|done].
  - destruct (for_each f l) as [e'|bs]; [|done].
    intros [= ->]. destruct IH as (a' & Ha' & Hf); [done|].
    exists a'. split; [by right|done].
Qed.

Lemma np_loadtxt_inr p a :
  np_loadtxt loadtxt_text fs p = inr a ↔
  ∃ text, files fs !! p = Some text ∧ loadtxt_text text = Some a.
Proof.
  unfold np_loadtxt, read_text, mbind, E_bind, try.
  destruct (files fs !! p) as [text|].
  - destruct (loadtxt_text text) as [a'|] eqn:Ha; split.
    + intros [= <-]. by exists text.
    + intros (text' & [= <-] & Ha'). congruence.
    + done.
    + intros (text' & [= <-] & Ha'). congruence.
  - split; [done|]. by intros (text & [=] & _).
Qed.

(** The color file names of a scene of variant A and the identifiers read
    from them. *)
Definition listed_ids (scene path : string) (names : list string)
    (ids : list Z) : Prop :=
  listings fs !! OsPath.join path [scene; "color"] = Some names
  ∧ Forall2 (λ name id, PyInt.int (OsPath.splitext name).1 = Some id) names ids.

Lemma sample_frame_ids_inr scene path sorted_ids :
  sample_frame_ids fs scene path = inr sorted_ids ↔
  ∃ names ids, listed_ids scene path names ids ∧ sorted_ids = sorted ids.
Proof.
  unfold sample_frame_ids, listed_ids, listdir, mbind, E_bind, mret, E_ret.
  destruct (listings fs !! _) as [names|]; cbn [try];
    [|split; [done|]; by intros (? & ? & [[=] _] & _)].
  destruct (for_each _ names) as [e|ids] eqn:Hids.
  - split; [done|]. intros (names' & ids & [[= <-] Hall] & _).
    assert (for_each (λ name, try (PyInt.int (OsPath.splitext name).1)
                                ValueError) names = inr ids) as Hok;
      [|congruence].
    apply for_each_Forall2. eapply Forall2_impl; [done|]. cbn. by intros ?? ->.
  - apply for_each_Forall2 in Hids. split.
    + intros [= <-]. exists names, ids. split; [|done]. split; [done|].
      eapply Forall2_impl; [done|]. cbn. intros name id.
      by destruct (PyInt.int _); intros [= ->].
    + intros (names' & ids' & [[= <-] Hall] & ->). do 2 f_equal.
      revert ids' Hall. induction Hids as [|name id names ids Hid _ IH];
        intros ids' Hall.
      * by apply Forall2_nil_inv_l in Hall.
      * apply Forall2_cons_inv_l in Hall as (id' & ids'' & Hid' & Hall & ->).
        rewrite Hid' in Hid. cbn in Hid. injection Hid as <-.
        f_equal. by apply IH.
Qed.

Lemma sample_candidates_inr scene path records :
  sample_candidates scene path = inr records ↔
  ∃ intr names ids,
    np_loadtxt loadtxt_text fs (OsPath.join path [scene; "intrinsics.txt"])
      = inr intr
    ∧ listed_ids scene path names ids
    ∧ Forall2 (λ frame_id f, ∃ pose,
          np_loadtxt loadtxt_text fs (sample_pose_file scene path frame_id)
            = inr pose
          ∧ f = {| file_name_image := sample_image scene path frame_id;
                   intrinsics := intr; pose := pose |})
        (sorted ids) records.
Proof.
  unfold sample_candidates, mbind at 1 2, E_bind at 1 2.
  assert (Hrec : ∀ intr l, sample_records scene path intr l = inr records ↔
    Forall2 (λ frame_id f, ∃ pose,
          np_loadtxt loadtxt_text fs (sample_pose_file scene path frame_id)
            = inr pose
          ∧ f = {| file_name_image := sample_image scene path frame_id;
                   intrinsics := intr; pose := pose |}) l records).
  { intros intr l. unfold sample_records. rewrite for_each_Forall2.
    split; intros Hall; (eapply Forall2_impl; [exact Hall|]); intros frame_id f.
    - unfold mbind, E_bind, mret, E_ret.
      destruct (np_loadtxt _ _ _) as [|pose]; [done|].
      intros [= <-]. by exists pose.
    - intros (pose & -> & ->). done. }
  destruct (np_loadtxt _ _ _) as [e|intr].
  { split; [done|]. by intros (? & ? & ? & ? & _). }
  destruct (sample_frame_ids fs scene path) as [e|l] eqn:Hl.
  - split; [done|]. intros (? & names & ids & _ & Hlisted & _).
    assert (sample_frame_ids fs scene path = inr (sorted ids)); [|congruence].
    apply sample_frame_ids_inr. by exists names, ids.
  - apply sample_frame_ids_inr in Hl as (names & ids & Hlisted & ->).
    rewrite Hrec. split.
    + intros Hall. by exists intr, names, ids.
    + intros (intr' & names' & ids' & [= <-] & Hlisted' & Hall).
      assert (sample_frame_ids fs scene path = inr (sorted ids')) as H1
        by (apply sample_frame_ids_inr; by exists names', ids').
      assert (sample_frame_ids fs scene path = inr (sorted ids)) as H2
        by (apply sample_frame_ids_inr; by exists names, ids).
      rewrite H1 in H2. injection H2 as <-. done.
Qed.

(** The lines of [pose.txt] in a scene of variant B and what they parse
    to. *)
Definition table_lines (scene path : string) (lines : list string)
    (parsed : list (string * ndarray * ndarray)) : Prop :=
  ∃ text, files fs !! OsPath.join path [scene; "pose.txt"] = Some text
    ∧ lines = Str.readlines text
    ∧ Forall2 (λ line x, parse_line np_float32 line = inr x) lines parsed.

Lemma parsed_lines_inr scene path parsed :
  parsed_lines scene path = inr parsed ↔ ∃ lines, table_lines scene path lines parsed.
Proof.
  unfold parsed_lines, table_lines, read_text, mbind, E_bind.
  destruct (files fs !! _) as [text|]; cbn [try].
  - rewrite for_each_Forall2. split.
    + intros Hall. exists (Str.readlines text), text. done.
    + by intros (lines & text' & [= <-] & -> & Hall).
  - split; [done|]. by intros (? & ? & [=] & _).
Qed.

Lemma test_candidates_inr scene path records :
  test_candidates scene path = inr records ↔
  ∃ lines parsed, table_lines scene path lines parsed
    ∧ records = test_records scene path (table_of parsed)
                  (frame_ids (table_of parsed)).
Proof.
  unfold test_candidates. rewrite read_table_parsed.
  unfold mbind, E_bind, mret, E_ret.
  destruct (parsed_lines scene path) as [e|parsed] eqn:Hp.
  - split; [done|]. intros (lines & parsed & Hl & _).
    assert (parsed_lines scene path = inr parsed); [|congruence].
    apply parsed_lines_inr. by exists lines.
  - apply parsed_lines_inr in Hp as Hp'. destruct Hp' as [lines Hl]. split.
    + intros [= <-]. by exists lines, parsed.
    + intros (lines' & parsed' & Hl' & ->).
      assert (parsed_lines scene path = inr parsed') as H1
        by (apply parsed_lines_inr; by exists lines').
      rewrite H1 in Hp. by injection Hp as ->.
Qed.

(** *** The lines of the pose table *)

(** The pose [[R | t], [0, 0, 0, 1]]. *)
Definition assemble (R t : list (list float)) : ndarray :=
  Matrix (concatenate0 (concatenate1 R t) [[zero; zero; zero; one]]).

Lemma parse_line_inr line x :
  parse_line np_float32 line = inr x ↔
  ∃ token intr R t,
    line_words line !! 0%nat = Some token
    ∧ np_array np_float32 (lslice 1 10 (line_words line)) ≫= reshape 3 3
      = Some intr
    ∧ np_array np_float32 (lslice 10 19 (line_words line)) ≫= reshape 3 3
      = Some R
    ∧ np_array np_float32 (lslice 19 22 (line_words line)) ≫= reshape 3 1
      = Some t
    ∧ x = (token, Matrix intr, assemble R t).
Proof.
  unfold parse_line, assemble.
  unfold mbind at 1 2 3 4, E_bind at 1 2 3 4, mret, E_ret.
  destruct (np_array np_float32 (lslice 1 10 _) ≫= reshape 3 3) as [intr|];
    cbn [try]; [|split; [done|]; by intros (? & ? & ? & ? & _ & [=] & _)].
  destruct (np_array np_float32 (lslice 10 19 _) ≫= reshape 3 3) as [R|];
    cbn [try]; [|split; [done|]; by intros (? & ? & ? & ? & _ & _ & [=] & _)].
  destruct (np_array np_float32 (lslice 19 22 _) ≫= reshape 3 1) as [t|];
    cbn [try];
    [|split; [done|]; by intros (? & ? & ? & ? & _ & _ & _ & [=] & _)].
  destruct (line_words line !! 0%nat) as [token|]; cbn [try].
  - split.
    + intros [= <-]. by exists token, intr, R, t.
    + by intros (? & ? & ? & ? & [= <-] & [= <-] & [= <-] & [= <-] & ->).
  - split; [done|]. by intros (? & ? & ? & ? & [=] & _).
Qed.

(** C2. In variant B, when [pose.txt] has a last line and the run ends
    well, the document at [info.json] is the manifest of the records of the
    scene whose pose is finite, and the [intrinsics] of every element of its
    [frames] are the rows of the 3 by 3 matrix read from fields 1 to 9 of
    that last line. *)
Theorem C2_intrinsics_of_last_line scene path path_meta verbose w w' text line :
  files fs !! OsPath.join path [scene; "pose.txt"] = Some text →
  last (Str.readlines text) = Some line →
  prepare_test_scene np_float32 fs os scene path path_meta verbose w
    = (w', inr tt) →
  ∃ rows records doc items,
    np_array np_float32 (lslice 1 10 (line_words line)) ≫= reshape 3 3
      = Some rows
    ∧ test_candidates scene path = inr records
    ∧ dumped w' !! info_json path_meta scene = Some doc
    ∧ manifest doc path scene (filter (λ f, valid f = true) records)
    ∧ json_get "frames" doc = Some (JArray items)
    ∧ Forall (λ item, json_get "intrinsics" item = Some (json_rows rows))
        items.
Proof.
  intros Hfile Hlast Hrun.
  apply (prepare_manifest PoseTable) in Hrun
    as (records & doc & Hc & Hd & Hm & Hitems).
  pose proof Hc as Hc'. cbn [candidates] in Hc'.
  apply test_candidates_inr in Hc'
    as (lines & parsed & (text' & Hfile' & -> & Hall) & Hrecords).
  rewrite Hfile in Hfile'. injection Hfile' as <-.
  pose proof (Forall2_last _ _ _ Hall) as Hl. rewrite Hlast in Hl.
  inversion Hl as [line' x Hx Heq1 Heq2|]; subst line'.
  apply parse_line_inr in Hx as (token & rows & R & t & _ & Hrows & _ & _ & ->).
  exists rows, records, doc, (map json_of_frame
                                (filter (λ f, valid f = true) records)).
  do 5 (split; [done|]).
  apply Forall_fmap, Forall_forall. intros f [_ Hf]%list_elem_of_filter.
  pose proof (test_records_table scene path parsed) as Hrec.
  rewrite <- Hrecords in Hrec.
  apply list_elem_of_lookup in Hf as [i Hi].
  destruct (Forall2_lookup_r _ _ _ _ _ Hrec Hi) as (y & _ & _ & _ & Hintr).
  rewrite <- Heq2 in Hintr. cbn in Hintr. injection Hintr as Hintr.
  change (Some (tolist (intrinsics f)) = Some (json_rows rows)).
  by rewrite <- Hintr.
Qed.

(** *** The order of the frames *)

Lemma StronglySorted_sublist {A} (R : A → A → Prop) (k l : list A) :
  k `sublist_of` l → StronglySorted R l → StronglySorted R k.
Proof.
  induction 1 as [|x k l Hkl IH|x k l Hkl IH]; intros Hl.
  - constructor.
  - apply StronglySorted_inv in Hl as [Hl Hx].
    constructor; [by apply IH|].
    apply Forall_forall. intros y Hy.
    rewrite Forall_forall in Hx. apply Hx. by eapply elem_of_sublist.
  - apply StronglySorted_inv in Hl as [Hl _]. by apply IH.
Qed.

Lemma Sorted_le_sublist (k l : list Z) :
  k `sublist_of` l → Sorted Z.le l → Sorted Z.le k.
Proof.
  intros Hkl Hl. apply StronglySorted_Sorted.
  eapply StronglySorted_sublist; [done|].
  by apply Sorted_StronglySorted; [apply _|].
Qed.

(** What is kept of a list of records comes from a sublist of what the
    records were built from. *)
Lemma Forall2_filter_sublist {A B} (R : A → B → Prop) (P : B → Prop)
    `{∀ b, Decision (P b)} (l : list A) (k : list B) :
  Forall2 R l k →
  ∃ l', l' `sublist_of` l ∧ Forall2 R l' (filter P k).
Proof.
  induction 1 as [|a b l k Hab _ (l' & Hsub & Hall)].
  - exists []. split; [done|constructor].
  - rewrite filter_cons. destruct (decide (P b)).
    + exists (a :: l'). split; [by constructor|by constructor].
    + exists l'. split; [by constructor|done].
Qed.

Lemma sorted_Sorted (ids : list Z) : Sorted Z.le (sorted ids).
Proof. apply Sorted_merge_sort; apply _. Qed.

Lemma sorted_Permutation (ids : list Z) : sorted ids ≡ₚ ids.
Proof. apply merge_sort_Permutation. Qed.

(** C4. When a run ends well, the document at [info.json] is the manifest
    of the records whose pose is finite, in the order of the records. In
    variant A there is one record for each of the identifiers read from the
    names of the files of [scene/color], taken in ascending order, so that
    the image paths of [frames] are those of an ascending sublist of the
    identifiers; in variant B there is one record for each line of
    [pose.txt], from first to last, so that the image paths of [frames] are
    those of a sublist of the lines. *)
Theorem C4_frames_order v scene path path_meta verbose w w' :
  prepare v scene path path_meta verbose w = (w', inr tt) →
  ∃ records doc items,
    dumped w' !! info_json path_meta scene = Some doc
    ∧ manifest doc path scene (filter (λ f, valid f = true) records)
    ∧ json_get "frames" doc = Some (JArray items)
    ∧ match v with
      | PerFrameFiles =>
          ∃ names ids kept,
            listed_ids scene path names ids
            ∧ sorted ids ≡ₚ ids
            ∧ Sorted Z.le (sorted ids)
            ∧ Forall2 (λ frame_id f,
                  file_name_image f = sample_image scene path frame_id
                  ∧ np_loadtxt loadtxt_text fs
                      (sample_pose_file scene path frame_id) = inr (pose f))
                (sorted ids) records
            ∧ kept `sublist_of` sorted ids
            ∧ Sorted Z.le kept
            ∧ Forall2 (λ frame_id item,
                  json_get "file_name_image" item
                  = Some (JString (sample_image scene path frame_id)))
                kept items
      | PoseTable =>
          ∃ lines parsed kept,
            table_lines scene path lines parsed
            ∧ Forall2 (λ line x, line_words line !! 0%nat = Some (token_of x))
                lines parsed
            ∧ Forall2 (λ x f,
                  file_name_image f = test_image scene path (token_of x)
                  ∧ last_pose parsed (token_of x) = Some (pose f))
                parsed records
            ∧ kept `sublist_of` parsed
            ∧ Forall2 (λ x item,
                  json_get "file_name_image" item
                  = Some (JString (test_image scene path (token_of x))))
                kept items
      end.
Proof.
  intros (records & doc & Hc & Hd & Hm & Hitems)%prepare_manifest.
  exists records, doc, (map json_of_frame
                          (filter (λ f, valid f = true) records)).
  do 3 (split; [done|]).
  destruct v; cbn [candidates] in Hc.
  - apply sample_candidates_inr in Hc as (intr & names & ids & _ & Hl & Hall).
    destruct (Forall2_filter_sublist _ (λ f, valid f = true) _ _ Hall)
      as (kept & Hsub & Hkept).
    exists names, ids, kept.
    split; [done|]. split; [apply sorted_Permutation|].
    split; [apply sorted_Sorted|]. split.
    { eapply Forall2_impl; [exact Hall|].
      by intros frame_id f (P & ? & ->). }
    split; [done|].
    split; [eapply Sorted_le_sublist; [done|apply sorted_Sorted]|].
    apply Forall2_fmap_r. eapply Forall2_impl; [exact Hkept|].
    by intros frame_id f (P & _ & ->).
  - apply test_candidates_inr in Hc as (lines & parsed & Htable & ->).
    pose proof (test_records_table scene path parsed) as Hrec.
    destruct (Forall2_filter_sublist _ (λ f, valid f = true) _ _ Hrec)
      as (kept & Hsub & Hkept).
    exists lines, parsed, kept. split; [done|]. split.
    { destruct Htable as (text & _ & _ & Hall).
      eapply Forall2_impl; [exact Hall|].
      intros line x (token & ? & ? & ? & Htok & _ & _ & _ & ->)%parse_line_inr.
      done. }
    split; [eapply Forall2_impl; [exact Hrec|]; by intros x f (? & ? & _)|].
    split; [done|].
    apply Forall2_fmap_r. eapply Forall2_impl; [exact Hkept|].
    intros x f (Hname & _). cbn. by rewrite Hname.
Qed.

(** *** The image paths of variant A *)

(** For an identifier that is not negative, ['%08d'] writes its decimal
    digits after as many zeros as are missing to eight characters. *)
Lemma fmt_08d_nonneg (n : Z) :
  0 <= n →
  PyInt.fmt_08d n
  = PyInt.zeros (8 - String.length (PyInt.dec (Z.to_N n)))
      +:+ PyInt.dec (Z.to_N n).
Proof.
  intros Hn. unfold PyInt.fmt_08d.
  destruct (Z.ltb_spec n 0) as [?|_]; [lia|].
  replace (Z.abs_N n) with (Z.to_N n) by lia. done.
Qed.

(** C3, amended. In variant A, when the run ends well, the image path of
    every element of [frames] in the document at [info.json] is
    [os.path.join] of the source root, the scene, [color] and the identifier
    of the frame written with ['%08d'] and followed by [.jpg]; and every
    listed identifier whose pose is finite has such an element, with that
    pose. *)
Theorem C3_image_path_joined scene path path_meta verbose w w' :
  prepare_sample_scene loadtxt_text fs os scene path path_meta verbose w
    = (w', inr tt) →
  ∃ names ids records doc items,
    listed_ids scene path names ids
    ∧ sample_candidates scene path = inr records
    ∧ dumped w' !! info_json path_meta scene = Some doc
    ∧ manifest doc path scene (filter (λ f, valid f = true) records)
    ∧ json_get "frames" doc = Some (JArray items)
    ∧ Forall (λ item, ∃ frame_id, frame_id ∈ ids ∧
          json_get "file_name_image" item
          = Some (JString (OsPath.join path
                    [scene; "color"; PyInt.fmt_08d frame_id +:+ ".jpg"])))
        items
    ∧ ∀ frame_id P, frame_id ∈ ids →
        np_loadtxt loadtxt_text fs (sample_pose_file scene path frame_id)
          = inr P →
        all_isfinite P = true →
        ∃ item j, item ∈ items
          ∧ json_get "file_name_image" item
            = Some (JString (OsPath.join path
                      [scene; "color"; PyInt.fmt_08d frame_id +:+ ".jpg"]))
          ∧ json_get "pose" item = Some j ∧ holds j P.
Proof.
  intros (records & doc & Hc & Hd & Hm & Hitems)%(prepare_manifest PerFrameFiles).
  pose proof Hc as Hc'. cbn [candidates] in Hc'.
  apply sample_candidates_inr in Hc' as (intr & names & ids & _ & Hl & Hall).
  exists names, ids, records, doc,
    (map json_of_frame (filter (λ f, valid f = true) records)).
  do 5 (split; [done|]). split.
  - apply Forall_fmap, Forall_forall. intros f [_ Hf]%list_elem_of_filter.
    apply list_elem_of_lookup in Hf as [i Hi].
    destruct (Forall2_lookup_r _ _ _ _ _ Hall Hi)
      as (frame_id & Hid & pose & _ & ->).
    exists frame_id. split; [|reflexivity].
    rewrite <- (sorted_Permutation ids). by eapply list_elem_of_lookup_2.
  - intros frame_id P Hid Hpose Hfin.
    rewrite <- (sorted_Permutation ids) in Hid.
    apply list_elem_of_lookup in Hid as [i Hi].
    destruct (Forall2_lookup_l _ _ _ _ _ Hall Hi)
      as (f & Hf & pose' & Hpose' & ->).
    rewrite Hpose in Hpose'. injection Hpose' as <-.
    exists (json_of_frame
              {| file_name_image := sample_image scene path frame_id;
                 intrinsics := intr; pose := P |}), (tolist P).
    split; [|split; [reflexivity|split; [reflexivity|apply holds_tolist]]].
    apply list_elem_of_fmap_2, list_elem_of_filter.
    split; [done|]. by eapply list_elem_of_lookup_2.
Qed.

(** *** Lines that bear the same token *)

Lemma filter_Forall_id {A} (P : A → Prop) `{∀ a, Decision (P a)} (l : list A) :
  Forall P l → filter P l = l.
Proof.
  induction 1 as [|a l Ha _ IH]; [done|].
  by rewrite filter_cons, decide_True, IH.
Qed.

Lemma last_pose_Some parsed token P :
  last_pose parsed token = Some P →
  ∃ x, x ∈ parsed ∧ token_of x = token ∧ pose_of x = P.
Proof.
  unfold last_pose. destruct (last (filter _ parsed)) as [x|] eqn:Hlast; [|done].
  intros [= <-]. apply last_Some_elem_of in Hlast.
  apply list_elem_of_filter in Hlast as [Htok Hx]. by exists x.
Qed.

(** C10. In variant B, when every line of [pose.txt] parses and the
    manifest can be written, the run ends well whether or not tokens
    repeat. One record is built for each line, in line order, named by the
    token of the line and carrying the pose of the last line that bears
    this token; the document at [info.json] is the manifest of those of the
    records whose pose is finite. When every line has a finite pose, its
    [frames] have one element for each line, in line order, with the image
    path of the token of the line and the pose of the last line that bears
    this token. *)
Theorem C10_repeated_tokens scene path path_meta verbose w lines parsed :
  table_lines scene path lines parsed →
  writable os w (info_dir path_meta scene) (info_json path_meta scene) →
  ∃ w' records doc items,
    prepare_test_scene np_float32 fs os scene path path_meta verbose w
      = (w', inr tt)
    ∧ dumped w' !! info_json path_meta scene = Some doc
    ∧ manifest doc path scene (filter (λ f, valid f = true) records)
    ∧ json_get "frames" doc = Some (JArray items)
    ∧ Forall2 (λ x f,
          file_name_image f = test_image scene path (token_of x)
          ∧ last_pose parsed (token_of x) = Some (pose f))
        parsed records
    ∧ (Forall (λ x, all_isfinite (pose_of x) = true) parsed →
       Forall2 (λ x item, ∃ P j,
           json_get "file_name_image" item
           = Some (JString (test_image scene path (token_of x)))
           ∧ last_pose parsed (token_of x) = Some P
           ∧ json_get "pose" item = Some j ∧ holds j P)
         parsed items).
Proof.
  intros Hlines Hok.
  set (records := test_records scene path (table_of parsed)
                    (frame_ids (table_of parsed))).
  assert (Hc : candidates PoseTable scene path = inr records)
    by (apply test_candidates_inr; by exists lines, parsed).
  destruct (prepare_candidates _ _ _ path_meta verbose w _ Hc Hok)
    as (w' & Hrun & _).
  destruct (prepare_manifest _ _ _ _ _ _ _ Hrun)
    as (records' & doc & Hc' & Hd & Hm & Hitems).
  rewrite Hc in Hc'. injection Hc' as <-.
  exists w', records, doc,
    (map json_of_frame (filter (λ f, valid f = true) records)).
  do 4 (split; [done|]).
  pose proof (test_records_table scene path parsed) as Hrec. split.
  - eapply Forall2_impl; [exact Hrec|]. by intros x f (? & ? & _).
  - intros Hfin. rewrite filter_Forall_id.
    + apply Forall2_fmap_r. eapply Forall2_impl; [exact Hrec|].
      intros x f (Hname & Hpose & _). exists (pose f), (tolist (pose f)).
      cbn. rewrite Hname. do 3 (split; [done|]). apply holds_tolist.
    + apply Forall_forall. intros f Hf.
      apply list_elem_of_lookup in Hf as [i Hi].
      destruct (Forall2_lookup_r _ _ _ _ _ Hrec Hi) as (x & _ & _ & Hpose & _).
      apply last_pose_Some in Hpose as (y & Hy & _ & Hpy).
      rewrite Forall_forall in Hfin. unfold valid. rewrite <- Hpy.
      by apply Hfin.
Qed.

(** *** Lines the pose table rejects *)

(** A line is malformed when splitting it at every single space gives fewer
    than 22 fields, or when one of the fields 1 to 21 is not a number for
    NumPy. *)
Definition malformed (line : string) : Prop :=
  (length (line_words line) < 22)%nat
  ∨ ∃ i field, (1 ≤ i < 22)%nat
      ∧ line_words line !! i = Some field ∧ np_float32 field = None.

(** [np.array(words[lo:hi], np.float32).reshape(r, c)] raises exactly when
    [words] is shorter than [hi] or one of the fields from [lo] to [hi - 1]
    is not a number. *)
Lemma fields_rejected (lo hi r c : nat) (words : list string) :
  (lo < hi)%nat → (hi - lo = r * c)%nat →
  np_array np_float32 (lslice lo hi words) ≫= reshape r c = None ↔
  (length words < hi)%nat
  ∨ ∃ i field, (lo ≤ i < hi)%nat
      ∧ words !! i = Some field ∧ np_float32 field = None.
Proof.
  intros Hlo Hrc. unfold np_array, lslice.
  assert (Hlen : length (take (hi - lo) (drop lo words))
                 = Nat.min (hi - lo) (length words - lo))
    by (by rewrite length_take, length_drop).
  destruct (mapM np_float32 (take (hi - lo) (drop lo words))) as [xs|] eqn:Hxs;
    cbn [mbind option_bind].
  - apply mapM_Some in Hxs as Hall. apply Forall2_length in Hall as Hlen'.
    unfold reshape. destruct (decide (length xs = (r * c)%nat)) as [Heq|Hne].
    + split; [done|]. intros [Hshort|(i & field & Hi & Hfield & Hbad)]; [lia|].
      assert (Hj : take (hi - lo) (drop lo words) !! (i - lo)%nat = Some field).
      { rewrite lookup_take_lt, lookup_drop by lia.
        by replace (lo + (i - lo))%nat with i by lia. }
      destruct (Forall2_lookup_l _ _ _ _ _ Hall Hj) as (x & _ & Hx). congruence.
    + split; [|done]. intros _. left. lia.
  - split; [|done]. intros _.
    apply mapM_None in Hxs. apply Exists_exists in Hxs as (field & Hin & Hbad).
    apply list_elem_of_lookup in Hin as [j Hj].
    apply lookup_take_Some in Hj as [Hj Hlt]. rewrite lookup_drop in Hj.
    right. exists (lo + j)%nat, field. split; [lia|done].
Qed.

Lemma malformed_fields line :
  malformed line ↔
    np_array np_float32 (lslice 1 10 (line_words line)) ≫= reshape 3 3 = None
    ∨ np_array np_float32 (lslice 10 19 (line_words line)) ≫= reshape 3 3 = None
    ∨ np_array np_float32 (lslice 19 22 (line_words line)) ≫= reshape 3 1 = None.
Proof.
  rewrite !fields_rejected by (cbn; lia). unfold malformed. split.
  - intros [Hshort|(i & field & Hi & Hfield & Hbad)].
    + right. right. by left.
    + destruct (decide (i < 10)%nat); [|destruct (decide (i < 19)%nat)].
      * left. right. exists i, field. split; [lia|done].
      * right. left. right. exists i, field. split; [lia|done].
      * right. right. right. exists i, field. split; [lia|done].
  - intros [[?|(i & field & ? & ? & ?)]|[[?|(i & field & ? & ? & ?)]
                                        |[?|(i & field & ? & ? & ?)]]];
      try (left; lia); right; exists i, field; (split; [lia|done]).
Qed.

(** A line either is malformed and raises a ValueError, or parses. *)
Lemma parse_line_cases line :
  (malformed line ∧ parse_line np_float32 line = inl ValueError)
  ∨ (¬ malformed line ∧ ∃ x, parse_line np_float32 line = inr x).
Proof.
  rewrite malformed_fields. unfold parse_line.
  destruct (np_array np_float32 (lslice 1 10 _) ≫= reshape 3 3) as [intr|];
    [|left; split; [by left|done]].
  destruct (np_array np_float32 (lslice 10 19 _) ≫= reshape 3 3) as [R|];
    [|left; split; [right; by left|done]].
  destruct (np_array np_float32 (lslice 19 22 _) ≫= reshape 3 1) as [t|] eqn:Ht;
    [|left; split; [right; by right|done]].
  right. split; [by intros [?|[?|?]]|].
  unfold mbind, E_bind, mret, E_ret. cbn [try].
  destruct (line_words line !! 0%nat) as [token|] eqn:Htok; cbn [try];
    [by eexists|].
  exfalso. apply lookup_ge_None in Htok.
  assert (np_array np_float32 (lslice 19 22 (line_words line)) ≫= reshape 3 1
          = None); [|congruence].
  apply fields_rejected; [lia|cbn; lia|]. left. lia.
Qed.

Lemma parse_line_malformed line :
  malformed line → parse_line np_float32 line = inl ValueError.
Proof. by destruct (parse_line_cases line) as [[_ ?]|[? _]]. Qed.

Lemma parse_line_raises line e :
  parse_line np_float32 line = inl e → malformed line ∧ e = ValueError.
Proof.
  destruct (parse_line_cases line) as [[? Hp]|[_ [x Hp]]]; rewrite Hp; [|done].
  by intros [= <-].
Qed.

(** C6, amended. In variant B each line of [pose.txt] is split at every
    single space. A line that gives fewer than 22 fields this way, or one of
    whose fields 1 to 21 NumPy does not read as a number, is not skipped: the
    builder raises a ValueError and writes no manifest. *)
Theorem C6_malformed_line_raises scene path path_meta verbose w text line :
  files fs !! OsPath.join path [scene; "pose.txt"] = Some text →
  line ∈ Str.readlines text →
  malformed line →
  ∃ w', prepare_test_scene np_float32 fs os scene path path_meta verbose w
        = (w', inl ValueError)
    ∧ dumped w' = dumped w.
Proof.
  intros Hfile Hline Hbad.
  assert (Hc : candidates PoseTable scene path = inl ValueError).
  { cbn. unfold test_candidates. rewrite read_table_parsed.
    unfold parsed_lines, read_text. rewrite Hfile. cbn [try].
    unfold mbind at 1 2 3, E_bind at 1 2 3.
    destruct (for_each_raises (parse_line np_float32) _ _ _ Hline
                (parse_line_malformed _ Hbad)) as [e He].
    rewrite He. apply for_each_inl in He as (line' & _ & He).
    by apply parse_line_raises in He as [_ ->]. }
  destruct (prepare_raises _ _ _ path_meta verbose w _ Hc) as (w' & ? & ? & _).
  by exists w'.
Qed.

(** *** Scenes that cannot be read *)

(** The inputs that stop a scene: in variant A no [intrinsics.txt], no
    [color] directory, a color file whose name is not an integer, a listed
    frame without its pose file; in variant B no [pose.txt], a malformed
    line. *)
Inductive fatal (scene path : string) : variant → Prop :=
| no_intrinsics :
    files fs !! OsPath.join path [scene; "intrinsics.txt"] = None →
    fatal scene path PerFrameFiles
| no_color_directory :
    listings fs !! OsPath.join path [scene; "color"] = None →
    fatal scene path PerFrameFiles
| color_name_not_integer names name :
    listings fs !! OsPath.join path [scene; "color"] = Some names →
    name ∈ names →
    PyInt.int (OsPath.splitext name).1 = None →
    fatal scene path PerFrameFiles
| no_pose_file names name frame_id :
    listings fs !! OsPath.join path [scene; "color"] = Some names →
    name ∈ names →
    PyInt.int (OsPath.splitext name).1 = Some frame_id →
    files fs !! sample_pose_file scene path frame_id = None →
    fatal scene path PerFrameFiles
| no_pose_table :
    files fs !! OsPath.join path [scene; "pose.txt"] = None →
    fatal scene path PoseTable
| malformed_line text line :
    files fs !! OsPath.join path [scene; "pose.txt"] = Some text →
    line ∈ Str.readlines text →
    malformed line →
    fatal scene path PoseTable.

Lemma fatal_candidates scene path v records :
  fatal scene path v → candidates v scene path ≠ inr records.
Proof.
  intros Hfatal Hc. destruct Hfatal as [Hno|Hno|names name Hls Hname Hint
    |names name frame_id Hls Hname Hint Hno|Hno|text line Hfile Hline Hbad];
    cbn [candidates] in Hc.
  - apply sample_candidates_inr in Hc as (intr & _ & _ & Hintr & _).
    apply np_loadtxt_inr in Hintr as (text & Htext & _). congruence.
  - apply sample_candidates_inr in Hc as (_ & names & ids & _ & [Hls _] & _).
    congruence.
  - apply sample_candidates_inr in Hc as (_ & names' & ids & _ & [Hls' Hids] & _).
    rewrite Hls in Hls'. injection Hls' as <-.
    apply list_elem_of_lookup in Hname as [i Hi].
    destruct (Forall2_lookup_l _ _ _ _ _ Hids Hi) as (frame_id & _ & Hid).
    congruence.
  - apply sample_candidates_inr in Hc
      as (intr & names' & ids & _ & [Hls' Hids] & Hall).
    rewrite Hls in Hls'. injection Hls' as <-.
    apply list_elem_of_lookup in Hname as [i Hi].
    destruct (Forall2_lookup_l _ _ _ _ _ Hids Hi) as (frame_id' & Hi' & Hid).
    rewrite Hint in Hid. injection Hid as <-.
    assert (Hin : frame_id ∈ sorted ids).
    { rewrite (sorted_Permutation ids). by eapply list_elem_of_lookup_2. }
    apply list_elem_of_lookup in Hin as [j Hj].
    destruct (Forall2_lookup_l _ _ _ _ _ Hall Hj) as (f & _ & P & Hpose & _).
    apply np_loadtxt_inr in Hpose as (text & Htext & _). congruence.
  - apply test_candidates_inr in Hc as (? & ? & (text & Htext & _) & _).
    congruence.
  - apply test_candidates_inr in Hc
      as (lines & parsed & (text' & Htext & -> & Hall) & _).
    rewrite Hfile in Htext. injection Htext as <-.
    apply list_elem_of_lookup in Hline as [i Hi].
    destruct (Forall2_lookup_l _ _ _ _ _ Hall Hi) as (x & _ & Hx).
    apply parse_line_malformed in Hbad. congruence.
Qed.

(** C5. In either variant, when the scene has one of the fatal inputs, the
    run ends with an exception for the caller, and the documents dumped and
    the directories made are what they were before: no [info.json] is
    written, not even in part. *)
Theorem C5_fatal_error_writes_nothing v scene path path_meta verbose w :
  fatal scene path v →
  ∃ w' e,
    prepare v scene path path_meta verbose w = (w', inl e)
    ∧ dumped w' = dumped w
    ∧ dumped w' !! info_json path_meta scene
      = dumped w !! info_json path_meta scene
    ∧ made w' = made w.
Proof.
  intros Hfatal.
  destruct (candidates v scene path) as [e|records] eqn:Hc.
  - destruct (prepare_raises _ _ _ path_meta verbose w _ Hc)
      as (w' & Hrun & Hd & Hm).
    exists w', e. by rewrite Hd.
  - by apply fatal_candidates with (records := records) in Hfatal.
Qed.

(** *** Scenes without a valid pose *)

(** No record of the scene has a pose that is finite throughout; the scene
    may have no record at all. *)
Inductive no_valid_pose (scene path : string) : variant → Prop :=
| no_valid_pose_file intr names ids :
    np_loadtxt loadtxt_text fs (OsPath.join path [scene; "intrinsics.txt"])
      = inr intr →
    listed_ids scene path names ids →
    Forall (λ frame_id, ∃ P,
        np_loadtxt loadtxt_text fs (sample_pose_file scene path frame_id)
          = inr P
        ∧ all_isfinite P = false) ids →
    no_valid_pose scene path PerFrameFiles
| no_valid_pose_line lines parsed :
    table_lines scene path lines parsed →
    Forall (λ x, all_isfinite (pose_of x) = false) parsed →
    no_valid_pose scene path PoseTable.

Lemma filter_Forall_nil {A} (P : A → Prop) `{∀ a, Decision (P a)} (l : list A) :
  Forall (λ a, ¬ P a) l → filter P l = [].
Proof.
  induction 1 as [|a l Ha _ IH]; [done|].
  by rewrite filter_cons, decide_False, IH.
Qed.

Lemma no_valid_pose_candidates scene path v :
  no_valid_pose scene path v →
  ∃ records, candidates v scene path = inr records
    ∧ filter (λ f, valid f = true) records = [].
Proof.
  intros [intr names ids Hintr Hl Hbad|lines parsed Hl Hbad].
  - assert (Hsorted : Forall (λ frame_id, ∃ f P,
        np_loadtxt loadtxt_text fs (sample_pose_file scene path frame_id)
          = inr P
        ∧ all_isfinite P = false
        ∧ f = {| file_name_image := sample_image scene path frame_id;
                 intrinsics := intr; pose := P |}) (sorted ids)).
    { rewrite (sorted_Permutation ids). eapply Forall_impl; [exact Hbad|].
      intros frame_id (P & ? & ?). by eexists _, P. }
    apply Forall_exists_Forall2_l in Hsorted as [records Hrec].
    exists records. split.
    + apply sample_candidates_inr. exists intr, names, ids.
      split; [done|]. split; [done|].
      eapply Forall2_impl; [exact Hrec|].
      intros frame_id f (P & ? & _ & ->). by exists P.
    + apply filter_Forall_nil. eapply Forall2_Forall_r; [exact Hrec|].
      apply Forall_forall. intros frame_id _ f (P & _ & Hfin & ->).
      unfold valid. cbn. by rewrite Hfin.
  - exists (test_records scene path (table_of parsed)
              (frame_ids (table_of parsed))).
    split; [apply test_candidates_inr; by exists lines, parsed|].
    apply filter_Forall_nil.
    eapply Forall2_Forall_r; [apply test_records_table|].
    apply Forall_forall. intros x _ f (_ & Hpose & _).
    apply last_pose_Some in Hpose as (y & Hy & _ & Hpy).
    rewrite Forall_forall in Hbad. unfold valid.
    rewrite <- Hpy, (Hbad y Hy). done.
Qed.

(** C8. In either variant, when the scene reads well, none of its records
    has a pose that is finite throughout (a scene without frames among
    them) and the manifest can be written, the run ends without an
    exception and the manifest it writes has its [dataset], [path] and
    [scene] and an empty list of frames. *)
Theorem C8_no_valid_pose_empty_manifest v scene path path_meta verbose w :
  no_valid_pose scene path v →
  writable os w (info_dir path_meta scene) (info_json path_meta scene) →
  ∃ w',
    prepare v scene path path_meta verbose w = (w', inr tt)
    ∧ dumped w' !! info_json path_meta scene
      = Some (JObject [("dataset", JString "sample");
                       ("path", JString path);
                       ("scene", JString scene);
                       ("frames", JArray [])]).
Proof.
  intros (records & Hc & Hnil)%no_valid_pose_candidates Hok.
  destruct (prepare_candidates _ _ _ path_meta verbose w _ Hc Hok)
    as (w' & Hrun & Hd).
  exists w'. split; [done|].
  by rewrite Hd, lookup_insert_eq, Hnil.
Qed.

(** *** Verbosity *)

(** C9. In either variant, two runs on the same scene that differ in
    [verbose] only end the same way and leave the same documents and
    directories. What [verbose] changes is the text printed: nothing when it
    is 0 or less, the line of the scene when it is 1, and from 2 on, in a
    run that reads the scene well, that line and then one line for every
    25th record, counted from 0. *)
Theorem C9_verbosity_only_prints v scene path path_meta verbose1 verbose2 w :
  let r1 := prepare v scene path path_meta verbose1 w in
  let r2 := prepare v scene path path_meta verbose2 w in
  r1.2 = r2.2
  ∧ dumped r1.1 = dumped r2.1
  ∧ made r1.1 = made r2.1
  ∧ (verbose1 <= 0 → stdout r1.1 = stdout w)
  ∧ (verbose1 = 1 → stdout r1.1 = stdout w ++ [msg_scene scene])
  ∧ (2 <= verbose1 → ∀ records, candidates v scene path = inr records →
       stdout r1.1
       = stdout w ++ msg_scene scene
           :: map (λ i, msg_frame scene i (length records))
                (filter (λ i, (i mod 25 = 0)%nat) (seq 0 (length records)))).
Proof.
  cbv zeta.
  destruct (prepare_run v scene path path_meta verbose1 w)
    as (msgs1 & (n1 & k1 & -> & Hk1) & ->).
  destruct (prepare_run v scene path path_meta verbose2 w)
    as (msgs2 & _ & ->).
  rewrite (outcome_stdout _ _ _ verbose1), (outcome_stdout _ _ _ verbose2).
  cbn [fst snd add_stdout dumped made stdout]. rewrite outcome_quiet.
  do 3 (split; [done|]).
  unfold scene_msgs. split; [|split].
  - intros Hv. rewrite progress_msgs_silent by lia.
    destruct (Z.ltb_spec 0 verbose1); [lia|]. by rewrite !app_nil_r.
  - intros ->. rewrite progress_msgs_silent by lia. by rewrite app_nil_r.
  - intros Hv records Hc. destruct (Hk1 records Hc) as [-> ->].
    unfold progress_msgs.
    destruct (Z.ltb_spec 0 verbose1); [|lia].
    destruct (Z.ltb_spec 1 verbose1); [|lia]. done.
Qed.

(** *** A line of identities *)

(** A token holds neither a space nor a newline. *)
Definition plain (token : string) : Prop :=
  Str.all (λ a, negb (Ascii.eqb a Str.space) && negb (Ascii.eqb a Str.nl)) token
  = true.

Lemma append_nil_l (s : string) : "" +:+ s = s.
Proof. reflexivity. Qed.

Lemma append_cons (a : ascii) (s t : string) :
  String a s +:+ t = String a (s +:+ t).
Proof. reflexivity. Qed.

Lemma split_plain token rest :
  plain token →
  Str.split Str.space (token +:+ String Str.space rest)
  = token :: Str.split Str.space rest.
Proof.
  unfold plain. induction token as [|a token IH]; cbn [Str.all].
  - intros _. rewrite append_nil_l. cbn [Str.split]. by rewrite Ascii.eqb_refl.
  - intros [[Ha _]%andb_prop Htoken]%andb_prop.
    rewrite append_cons. cbn [Str.split].
    apply negb_true_iff in Ha. rewrite Ha.
    by rewrite (IH Htoken).
Qed.

Lemma lstrip_plain token rest :
  plain token →
  Str.lstrip (Ascii.eqb Str.nl) (token +:+ String Str.space rest)
  = token +:+ String Str.space rest.
Proof.
  unfold plain. destruct token as [|a token]; cbn [Str.all].
  - done.
  - intros [[_ Ha]%andb_prop _]%andb_prop.
    rewrite append_cons. cbn [Str.lstrip].
    apply negb_true_iff in Ha. rewrite Ascii.eqb_sym in Ha. by rewrite Ha.
Qed.

Lemma rstrip_app p token s :
  Str.rstrip p s ≠ EmptyString →
  Str.rstrip p (token +:+ s) = token +:+ Str.rstrip p s.
Proof.
  intros Hs. induction token as [|a token IH]; [done|].
  rewrite !append_cons. cbn [Str.rstrip]. rewrite IH.
  destruct token as [|b token]; [|by rewrite append_cons].
  rewrite append_nil_l. by destruct (Str.rstrip p s).
Qed.

Definition identity_fields : string :=
  " 1 0 0 0 1 0 0 0 1 1 0 0 0 1 0 0 0 1 0 0 0".

(** C7. In variant B, a line made of a token, the nine fields of the
    identity intrinsics, the nine fields of the identity rotation and the
    three fields of the zero translation, with or without its newline, parses
    to this token, the 3 by 3 identity, and the pose [[R | t], [0, 0, 0, 1]],
    here the 4 by 4 identity. *)
Theorem C7_identity_line token (newline : bool) :
  np_float32 "1" = Some one →
  np_float32 "0" = Some zero →
  plain token →
  parse_line np_float32
    (token +:+ identity_fields +:+ (if newline then Scenes.nl else ""))
  = inr (token, Scenes.eye3, Scenes.eye4)
  ∧ Scenes.eye4
    = assemble [[one; zero; zero]; [zero; one; zero]; [zero; zero; one]]
        [[zero]; [zero]; [zero]].
Proof.
  intros H1 H0 Htoken. split; [|done].
  assert (Hwords : line_words
            (token +:+ identity_fields +:+ (if newline then Scenes.nl else ""))
          = token :: ["1"; "0"; "0"; "0"; "1"; "0"; "0"; "0"; "1";
                      "1"; "0"; "0"; "0"; "1"; "0"; "0"; "0"; "1";
                      "0"; "0"; "0"]).
  { unfold line_words, Str.strip, identity_fields.
    assert (Htail : Str.rstrip (Ascii.eqb Str.nl)
              (" 1 0 0 0 1 0 0 0 1 1 0 0 0 1 0 0 0 1 0 0 0"
                 +:+ (if newline then Scenes.nl else ""))
            = " 1 0 0 0 1 0 0 0 1 1 0 0 0 1 0 0 0 1 0 0 0")
      by (by destruct newline).
    change (" 1 0 0 0 1 0 0 0 1 1 0 0 0 1 0 0 0 1 0 0 0"
              +:+ (if newline then Scenes.nl else ""))
      with (String Str.space ("1 0 0 0 1 0 0 0 1 1 0 0 0 1 0 0 0 1 0 0 0"
              +:+ (if newline then Scenes.nl else ""))) in *.
    rewrite lstrip_plain by done.
    rewrite rstrip_app by (by rewrite Htail).
    rewrite Htail.
    change " 1 0 0 0 1 0 0 0 1 1 0 0 0 1 0 0 0 1 0 0 0"
      with (String Str.space "1 0 0 0 1 0 0 0 1 1 0 0 0 1 0 0 0 1 0 0 0").
    by rewrite split_plain. }
  unfold parse_line. rewrite Hwords.
  unfold lslice, np_array. cbn [take drop Nat.sub mapM].
  rewrite !H1, !H0. reflexivity.
Qed.

(** ** Further properties of the two builders *)

(** *** How many frames *)

Lemma length_filter_split {A} (P : A → bool) (l : list A) :
  (length (filter (λ a, P a = true) l) + length (filter (λ a, P a = false) l)
   = length l)%nat.
Proof.
  induction l as [|a l IH]; [done|].
  rewrite !filter_cons. destruct (P a) eqn:Ha.
  - rewrite decide_True, decide_False by done. cbn. lia.
  - rewrite decide_False, decide_True by done. cbn. lia.
Qed.

(** X3. When a run ends well, the loop built one record for each file of
    [scene/color] (variant A) or each line of [pose.txt] (variant B), and
    the [frames] of the document at [info.json] have as many elements as
    there are records less those whose pose is not finite. *)
Theorem frames_counted v scene path path_meta verbose w w' :
  prepare v scene path path_meta verbose w = (w', inr tt) →
  ∃ records doc items,
    candidates v scene path = inr records
    ∧ dumped w' !! info_json path_meta scene = Some doc
    ∧ manifest doc path scene (filter (λ f, valid f = true) records)
    ∧ json_get "frames" doc = Some (JArray items)
    ∧ (length items + length (filter (λ f, valid f = false) records)
       = length records)%nat
    ∧ match v with
      | PerFrameFiles =>
          ∃ names,
            listings fs !! OsPath.join path [scene; "color"] = Some names
            ∧ length records = length names
      | PoseTable =>
          ∃ text,
            files fs !! OsPath.join path [scene; "pose.txt"] = Some text
            ∧ length records = length (Str.readlines text)
      end.
Proof.
  intros (records & doc & Hc & Hd & Hm & Hitems)%prepare_manifest.
  exists records, doc,
    (map json_of_frame (filter (λ f, valid f = true) records)).
  do 4 (split; [done|]).
  split; [rewrite length_map; apply length_filter_split|].
  destruct v; cbn [candidates] in Hc.
  - apply sample_candidates_inr in Hc as (intr & names & ids & _ & [Hl Hids] & Hall).
    exists names. split; [done|].
    apply Forall2_length in Hids, Hall.
    rewrite <- Hall, Hids. apply Permutation_length, sorted_Permutation.
  - apply test_candidates_inr in Hc
      as (lines & parsed & (text & Hfile & -> & Hall) & ->).
    exists text. split; [done|].
    pose proof (test_records_table scene path parsed) as Hrec.
    apply Forall2_length in Hall, Hrec. congruence.
Qed.

(** *** What the frames carry *)

(** X4. In variant A, every element of [frames] in the document at
    [info.json] holds the numbers of the array loaded from [intrinsics.txt]
    and, as its pose, those of the array loaded from the pose file of its
    identifier, nested as the arrays are. *)
Theorem sample_frames_as_loaded scene path path_meta verbose w w' :
  prepare_sample_scene loadtxt_text fs os scene path path_meta verbose w
    = (w', inr tt) →
  ∃ intr records doc items,
    np_loadtxt loadtxt_text fs (OsPath.join path [scene; "intrinsics.txt"])
      = inr intr
    ∧ sample_candidates scene path = inr records
    ∧ dumped w' !! info_json path_meta scene = Some doc
    ∧ manifest doc path scene (filter (λ f, valid f = true) records)
    ∧ json_get "frames" doc = Some (JArray items)
    ∧ Forall (λ item,
          (∃ j, json_get "intrinsics" item = Some j ∧ holds j intr)
          ∧ ∃ frame_id P j,
              json_get "file_name_image" item
              = Some (JString (sample_image scene path frame_id))
              ∧ np_loadtxt loadtxt_text fs
                  (sample_pose_file scene path frame_id) = inr P
              ∧ json_get "pose" item = Some j ∧ holds j P) items.
Proof.
  intros (records & doc & Hc & Hd & Hm & Hitems)%(prepare_manifest PerFrameFiles).
  pose proof Hc as Hc'. cbn [candidates] in Hc'.
  apply sample_candidates_inr in Hc' as (intr & names & ids & Hintr & _ & Hall).
  exists intr, records, doc,
    (map json_of_frame (filter (λ f, valid f = true) records)).
  do 5 (split; [done|]).
  apply Forall_fmap, Forall_forall. intros f [_ Hf]%list_elem_of_filter.
  apply list_elem_of_lookup in Hf as [i Hi].
  destruct (Forall2_lookup_r _ _ _ _ _ Hall Hi) as (frame_id & _ & P & HP & ->).
  split.
  - exists (tolist intr). split; [done|apply holds_tolist].
  - exists frame_id, P, (tolist P). do 3 (split; [done|]). apply holds_tolist.
Qed.

(** A list of [r] rows of [c] elements each. *)
Definition shape (r c : nat) (rows : list (list float)) : Prop :=
  length rows = r ∧ Forall (λ row, length row = c) rows.

Lemma rows_of_shape r c : ∀ xs,
  length xs = (r * c)%nat → shape r c (rows_of r c xs).
Proof.
  induction r as [|r IH]; intros xs Hlen; cbn [rows_of].
  - by split.
  - destruct (IH (drop c xs)) as [Hr Hc]; [rewrite length_drop; lia|].
    split; [cbn; by rewrite Hr|].
    constructor; [rewrite length_take; lia|done].
Qed.

Lemma fields_shape (r c : nat) (ws : list string) rows :
  np_array np_float32 ws ≫= reshape r c = Some rows → shape r c rows.
Proof.
  destruct (np_array np_float32 ws) as [xs|]; [|done]. cbn. unfold reshape.
  destruct (decide (length xs = (r * c)%nat)); [|done].
  intros [= <-]. by apply rows_of_shape.
Qed.

Lemma assemble_shape R t :
  shape 3 3 R → shape 3 1 t →
  ∃ rows, assemble R t = Matrix rows ∧ shape 4 4 rows
    ∧ last rows = Some [zero; zero; zero; one].
Proof.
  intros [HR HRc] [Ht Htc].
  destruct R as [|r1 [|r2 [|r3 [|]]]]; try done.
  destruct t as [|t1 [|t2 [|t3 [|]]]]; try done.
  eexists. split; [reflexivity|]. split; [|done].
  split; [done|].
  repeat match goal with
         | H : Forall _ (_ :: _) |- _ => apply Forall_cons in H as [? H]
         end.
  cbn. repeat constructor; rewrite ?length_app; lia.
Qed.

Lemma parse_line_shape line x :
  parse_line np_float32 line = inr x →
  (∃ K, intr_of x = Matrix K ∧ shape 3 3 K)
  ∧ ∃ rows, pose_of x = Matrix rows ∧ shape 4 4 rows
      ∧ last rows = Some [zero; zero; zero; one].
Proof.
  intros (token & K & R & t & _ & HK & HR & Ht & ->)%parse_line_inr.
  apply fields_shape in HK, HR, Ht. split; [by exists K|].
  by apply assemble_shape.
Qed.

(** X5. In variant B, every element of [frames] in the document at
    [info.json] has intrinsics of 3 rows of 3 numbers and a pose of 4 rows
    of 4 numbers whose last row is 0, 0, 0, 1. *)
Theorem test_frames_shape scene path path_meta verbose w w' :
  prepare_test_scene np_float32 fs os scene path path_meta verbose w
    = (w', inr tt) →
  ∃ records doc items,
    test_candidates scene path = inr records
    ∧ dumped w' !! info_json path_meta scene = Some doc
    ∧ manifest doc path scene (filter (λ f, valid f = true) records)
    ∧ json_get "frames" doc = Some (JArray items)
    ∧ Forall (λ item,
          (∃ K, json_get "intrinsics" item = Some (json_rows K)
             ∧ shape 3 3 K)
          ∧ ∃ rows, json_get "pose" item = Some (json_rows rows)
              ∧ shape 4 4 rows
              ∧ last rows = Some [zero; zero; zero; one]) items.
Proof.
  intros (records & doc & Hc & Hd & Hm & Hitems)%(prepare_manifest PoseTable).
  pose proof Hc as Hc'. cbn [candidates] in Hc'.
  apply test_candidates_inr in Hc'
    as (lines & parsed & (text & Hfile & -> & Hall) & Hrecords).
  exists records, doc,
    (map json_of_frame (filter (λ f, valid f = true) records)).
  do 4 (split; [done|]).
  apply Forall_fmap, Forall_forall. intros f [_ Hf]%list_elem_of_filter.
  pose proof (test_records_table scene path parsed) as Hrec.
  rewrite <- Hrecords in Hrec.
  apply list_elem_of_lookup in Hf as [i Hi].
  destruct (Forall2_lookup_r _ _ _ _ _ Hrec Hi) as (x & _ & _ & Hpose & Hintr).
  assert (Hshape : ∀ y, y ∈ parsed →
    (∃ K, intr_of y = Matrix K ∧ shape 3 3 K)
    ∧ ∃ rows, pose_of y = Matrix rows ∧ shape 4 4 rows
        ∧ last rows = Some [zero; zero; zero; one]).
  { intros y [j Hj]%list_elem_of_lookup.
    destruct (Forall2_lookup_r _ _ _ _ _ Hall Hj) as (line & _ & Hline).
    by eapply parse_line_shape. }
  split.
  - destruct (last parsed) as [y|] eqn:Hlast; [|done].
    injection Hintr as Hintr.
    destruct (Hshape y) as [(K & HK & HKs) _]; [by apply last_Some_elem_of|].
    exists K. split; [|done].
    change (Some (tolist (intrinsics f)) = Some (json_rows K)).
    by rewrite <- Hintr, HK.
  - apply last_pose_Some in Hpose as (y & Hy & _ & Heq).
    destruct (Hshape y Hy) as [_ (rows & Hrows & Hs & Hl)].
    exists rows. split; [|done].
    change (Some (tolist (pose f)) = Some (json_rows rows)).
    by rewrite <- Heq, Hrows.
Qed.

(** *** When a run raises, and with what *)

Lemma prepare_raised v scene path path_meta verbose w w' e :
  prepare v scene path path_meta verbose w = (w', inl e) →
  candidates v scene path = inl e ∨ ∃ kind p, e = OSError kind p.
Proof.
  destruct (prepare_run v scene path path_meta verbose w) as (msgs & _ & ->).
  unfold outcome. destruct (candidates v scene path) as [e'|records].
  - intros [= _ <-]. by left.
  - intros [Hos _]%write_manifest_raises. by right.
Qed.

Lemma np_loadtxt_inl p e :
  np_loadtxt loadtxt_text fs p = inl e →
  (∃ kind, e = OSError kind p) ∨ e = ValueError.
Proof.
  unfold np_loadtxt, read_text, mbind, E_bind, try.
  destruct (files fs !! p) as [text|].
  - destruct (loadtxt_text text); [done|]. intros [= <-]. by right.
  - intros [= <-]. left. destruct (listings fs !! p); by eexists.
Qed.

Lemma prepare_exception v scene path path_meta verbose w w' e :
  prepare v scene path path_meta verbose w = (w', inl e) →
  (∃ kind p, e = OSError kind p) ∨ e = ValueError.
Proof.
  intros [Hc|Hos]%prepare_raised; [|by left].
  destruct v; cbn [candidates] in Hc.
  - unfold sample_candidates, mbind at 1 2, E_bind at 1 2 in Hc.
    destruct (np_loadtxt _ _ _) as [e'|intr] eqn:Hintr.
    { injection Hc as <-. apply np_loadtxt_inl in Hintr as [[kind ->] | ->];
        [left; by eexists _, _ | by right]. }
    unfold sample_frame_ids, listdir, mbind at 1 2, E_bind at 1 2 in Hc.
    destruct (listings fs !! _) as [names|] eqn:Hl; cbn [try] in Hc.
    2:{ injection Hc as <-. left. destruct (files fs !! _); by eexists _, _. }
    destruct (for_each _ names) as [e'|ids] eqn:Hids.
    { injection Hc as <-. apply for_each_inl in Hids as (name & _ & Hname).
      destruct (PyInt.int _); [done|]. injection Hname as <-. by right. }
    cbn [mret E_ret] in Hc. apply for_each_inl in Hc as (frame_id & _ & Hid).
    unfold mbind, E_bind in Hid.
    destruct (np_loadtxt loadtxt_text fs (sample_pose_file scene path frame_id))
      as [e'|P] eqn:HP; [|done].
    injection Hid as <-. apply np_loadtxt_inl in HP as [[kind ->] | ->];
      [left; by eexists _, _ | by right].
  - unfold test_candidates in Hc. rewrite read_table_parsed in Hc.
    unfold parsed_lines, read_text, mbind at 1 2 3, E_bind at 1 2 3 in Hc.
    destruct (files fs !! _) as [text|] eqn:Hfile; cbn [try] in Hc.
    2:{ injection Hc as <-. left. destruct (listings fs !! _); by eexists _, _. }
    destruct (for_each _ _) as [e'|parsed] eqn:Hp; [|done].
    injection Hc as <-. apply for_each_inl in Hp as (line & _ & Hline).
    apply parse_line_raises in Hline as [_ ->]. by right.
Qed.

(** X6. In neither variant does a run end with a KeyError, an IndexError or
    an UnboundLocalError: the second loop never fails to find a token in
    [poses], a line that has its 22 fields has a field 0, and [intrinsics]
    is never read unbound. *)
Theorem no_lookup_error v scene path path_meta verbose w w' e :
  prepare v scene path path_meta verbose w = (w', inl e) →
  (∀ k, e ≠ KeyError k) ∧ e ≠ IndexError ∧ (∀ v', e ≠ UnboundLocalError v').
Proof.
  intros [(kind & p & ->) | ->]%prepare_exception; by repeat split.
Qed.


(** X8. A run of variant B ends well exactly when [pose.txt] is there, none
    of its lines is malformed, and the manifest can be written. *)
Theorem test_scene_returns_iff scene path path_meta verbose w :
  (∃ w', prepare_test_scene np_float32 fs os scene path path_meta verbose w
         = (w', inr tt))
  ↔ (∃ text,
      files fs !! OsPath.join path [scene; "pose.txt"] = Some text
      ∧ Forall (λ line, ¬ malformed line) (Str.readlines text))
    ∧ writable os w (info_dir path_meta scene) (info_json path_meta scene).
Proof.
  split.
  - intros (w' & (records & Hc & _ & Hok)%(prepare_returns PoseTable)).
    split; [|done].
    apply test_candidates_inr in Hc
      as (lines & parsed & (text & Hfile & -> & Hall) & _).
    exists text. split; [done|].
    eapply Forall2_Forall_l; [exact Hall|].
    apply Forall_forall. intros x _ line Hline Hbad.
    apply parse_line_malformed in Hbad. congruence.
  - intros [(text & Hfile & Hall) Hok].
    assert (Hex : Forall (λ line, ∃ x, parse_line np_float32 line = inr x)
                    (Str.readlines text)).
    { eapply Forall_impl; [exact Hall|]. intros line Hgood.
      by destruct (parse_line_cases line) as [[? _]|[_ ?]]. }
    apply Forall_exists_Forall2_l in Hex as [parsed Hparsed].
    assert (Hc : candidates PoseTable scene path
                 = inr (test_records scene path (table_of parsed)
                          (frame_ids (table_of parsed)))).
    { apply test_candidates_inr. exists (Str.readlines text), parsed.
      split; [|done]. by exists text. }
    destruct (prepare_candidates _ _ _ path_meta verbose w _ Hc Hok)
      as (w' & Hrun & _).
    by exists w'.
Qed.

(** *** A scene given as an absolute path *)

Lemma join_absolute (a b : string) (l : list string) :
  Str.startswith OsPath.sep b = true → OsPath.join a (b :: l) = OsPath.join b l.
Proof.
  intros Hb. unfold OsPath.join. cbn [fold_left].
  unfold OsPath.join2 at 2. by rewrite Hb.
Qed.

(** X9. When [scene] starts with a slash, [os.path.join] drops what comes
    before it: the run is the same whatever [path_meta] is, and the manifest
    goes to [scene/info.json], beside the source data. *)
Theorem absolute_scene_ignores_path_meta v scene path path_meta path_meta'
    verbose w :
  Str.startswith OsPath.sep scene = true →
  prepare v scene path path_meta verbose w
    = prepare v scene path path_meta' verbose w
  ∧ info_json path_meta scene = OsPath.join scene ["info.json"]
  ∧ info_dir path_meta scene = scene.
Proof.
  intros Hscene. split; [|split].
  - destruct v; unfold prepare, prepare_sample_scene, prepare_test_scene;
      by rewrite !(join_absolute path_meta), !(join_absolute path_meta').
  - unfold info_json. by rewrite join_absolute.
  - unfold info_dir. by rewrite join_absolute.
Qed.

(** *** Tokens that do not repeat *)

Lemma last_pose_NoDup parsed x :
  NoDup (map token_of parsed) → x ∈ parsed →
  last_pose parsed (token_of x) = Some (pose_of x).
Proof.
  unfold last_pose. induction parsed as [|a parsed IH]; cbn [map].
  - by intros _ ?%not_elem_of_nil.
  - intros [Ha Hnd]%NoDup_cons Hx. rewrite filter_cons.
    apply elem_of_cons in Hx as [->|Hx].
    + rewrite decide_True by done.
      rewrite (filter_Forall_nil (λ y, token_of y = token_of a)); [done|].
      apply Forall_forall. intros y Hy Heq. apply Ha. rewrite <- Heq.
      by apply (list_elem_of_fmap_2 token_of).
    + rewrite decide_False; [by apply IH|].
      intros Heq. apply Ha. rewrite Heq.
      by apply (list_elem_of_fmap_2 token_of).
Qed.

Lemma Forall2_filter_both {A B} (R : A → B → Prop) (P : A → Prop) (Q : B → Prop)
    `{∀ a, Decision (P a)} `{∀ b, Decision (Q b)} (l : list A) (k : list B) :
  Forall2 (λ a b, R a b ∧ (P a ↔ Q b)) l k →
  Forall2 R (filter P l) (filter Q k).
Proof.
  induction 1 as [|a b l k [Hab Hiff] _ IH]; [constructor|].
  rewrite !filter_cons. destruct (decide (P a)) as [Ha|Ha].
  - rewrite decide_True by (by apply Hiff). by constructor.
  - rewrite decide_False by (by rewrite <- Hiff). done.
Qed.

(** X10. In variant B, when every line of [pose.txt] parses, no token comes
    twice and the manifest can be written, the [frames] of the document at
    [info.json] have one element for each line whose pose is finite, in
    line order, with the image path [os.path.join] of the source root, the
    scene, [color] and the token of the line, and with the pose of that
    very line. *)
Theorem distinct_tokens_own_pose scene path path_meta verbose w lines parsed :
  table_lines scene path lines parsed →
  NoDup (map token_of parsed) →
  writable os w (info_dir path_meta scene) (info_json path_meta scene) →
  ∃ w' doc items,
    prepare_test_scene np_float32 fs os scene path path_meta verbose w
      = (w', inr tt)
    ∧ dumped w' !! info_json path_meta scene = Some doc
    ∧ json_get "frames" doc = Some (JArray items)
    ∧ Forall2 (λ x item,
          json_get "file_name_image" item
          = Some (JString (OsPath.join path [scene; "color"; token_of x]))
          ∧ ∃ j, json_get "pose" item = Some j ∧ holds j (pose_of x))
        (filter (λ x, all_isfinite (pose_of x) = true) parsed) items.
Proof.
  intros Hlines Hnd Hok.
  set (records := test_records scene path (table_of parsed)
                    (frame_ids (table_of parsed))).
  assert (Hc : candidates PoseTable scene path = inr records)
    by (apply test_candidates_inr; by exists lines, parsed).
  destruct (prepare_candidates _ _ _ path_meta verbose w _ Hc Hok)
    as (w' & Hrun & _).
  destruct (prepare_manifest _ _ _ _ _ _ _ Hrun)
    as (records' & doc & Hc' & Hd & Hm & Hitems).
  rewrite Hc in Hc'. injection Hc' as <-.
  exists w', doc, (map json_of_frame (filter (λ f, valid f = true) records)).
  do 3 (split; [done|]).
  apply Forall2_fmap_r.
  assert (Hboth : Forall2 (λ x f,
              file_name_image f = test_image scene path (token_of x)
              ∧ pose f = pose_of x)
            (filter (λ x, all_isfinite (pose_of x) = true) parsed)
            (filter (λ f, valid f = true) records)).
  { apply Forall2_filter_both.
    pose proof (test_records_table scene path parsed) as Hrec.
    apply Forall2_same_length_lookup. split; [by eapply Forall2_length|].
    intros i x f Hx Hf.
    destruct (Forall2_lookup_lr _ _ _ _ _ _ Hrec Hx Hf) as (Hname & Hpose & _).
    rewrite (last_pose_NoDup parsed x Hnd) in Hpose
      by (by eapply list_elem_of_lookup_2).
    injection Hpose as Hpose. unfold valid. by rewrite Hpose. }
  eapply Forall2_impl; [exact Hboth|].
  intros x f [Hname Hpose]. cbn. rewrite Hname. split; [done|].
  exists (tolist (pose f)). split; [done|]. rewrite <- Hpose. apply holds_tolist.
Qed.

(** *** Fields past the 22nd *)



End Runs.

(** ** File names and identifiers *)

(** The number a string of decimal digits stands for, read from the left
    with [acc] as the number read so far. *)
Fixpoint uint_val (d : Decimal.uint) (acc : Z) : Z :=
  match d with
  | Decimal.Nil => acc
  | Decimal.D0 l => uint_val l (10 * acc + 0)
  | Decimal.D1 l => uint_val l (10 * acc + 1)
  | Decimal.D2 l => uint_val l (10 * acc + 2)
  | Decimal.D3 l => uint_val l (10 * acc + 3)
  | Decimal.D4 l => uint_val l (10 * acc + 4)
  | Decimal.D5 l => uint_val l (10 * acc + 5)
  | Decimal.D6 l => uint_val l (10 * acc + 6)
  | Decimal.D7 l => uint_val l (10 * acc + 7)
  | Decimal.D8 l => uint_val l (10 * acc + 8)
  | Decimal.D9 l => uint_val l (10 * acc + 9)
  end.

Lemma digits_string_of_uint d : ∀ seen acc,
  d ≠ Decimal.Nil ∨ seen = true →
  PyInt.digits (NilEmpty.string_of_uint d) seen acc = Some (uint_val d acc).
Proof.
  induction d as [|l IH|l IH|l IH|l IH|l IH|l IH|l IH|l IH|l IH|l IH];
    intros seen acc Hd; cbn [NilEmpty.string_of_uint uint_val];
    [by destruct Hd as [?| ->]|..];
    (cbn [PyInt.digits]; apply IH; by right).
Qed.

Lemma uint_val_pos d : ∀ p,
  uint_val d (Z.pos p) = Z.pos (Pos.of_uint_acc d p).
Proof.
  induction d as [|l IH|l IH|l IH|l IH|l IH|l IH|l IH|l IH|l IH|l IH];
    intros p; cbn [uint_val Pos.of_uint_acc]; [done|..];
    (rewrite <- IH; f_equal; lia).
Qed.

Lemma uint_val_0 d : uint_val d 0 = Z.of_N (Pos.of_uint d).
Proof.
  induction d as [|l IH|l IH|l IH|l IH|l IH|l IH|l IH|l IH|l IH|l IH];
    cbn [uint_val Pos.of_uint]; [done|done|..];
    apply (uint_val_pos l).
Qed.

Lemma digits_dec (n : N) (seen : bool) :
  PyInt.digits (PyInt.dec n) seen 0 = Some (Z.of_N n).
Proof.
  unfold PyInt.dec.
  assert (Hnil : N.to_uint n ≠ Decimal.Nil).
  { destruct n as [|p]; [done|]. apply DecimalPos.Unsigned.to_uint_nonnil. }
  replace (NilZero.string_of_uint (N.to_uint n))
    with (NilEmpty.string_of_uint (N.to_uint n))
    by (by destruct (N.to_uint n)).
  rewrite digits_string_of_uint by (by left).
  rewrite uint_val_0. f_equal. f_equal. apply DecimalN.Unsigned.of_to.
Qed.

Lemma digits_zeros (k : nat) (s : string) (seen : bool) :
  PyInt.digits (PyInt.zeros k +:+ s) seen 0
  = PyInt.digits s (match k with O => seen | S _ => true end) 0.
Proof.
  revert seen. induction k as [|k IH]; intros seen; [done|].
  cbn [PyInt.zeros]. rewrite append_cons. cbn [PyInt.digits].
  change (Str.isdigit "0") with true. cbn match.
  change (10 * 0 + Str.digit_val "0") with 0.
  rewrite IH. by destruct k.
Qed.

(** The characters of an identifier written with ['%08d']. *)
Definition idchar (a : ascii) : bool := Str.isdigit a || Ascii.eqb a "-".

Lemma all_app p s t : Str.all p (s +:+ t) = Str.all p s && Str.all p t.
Proof.
  induction s as [|a s IH]; [done|].
  rewrite append_cons. cbn [Str.all]. by rewrite IH, andb_assoc.
Qed.

Lemma all_impl (p q : ascii → bool) s :
  (∀ a, p a = true → q a = true) → Str.all p s = true → Str.all q s = true.
Proof.
  intros Hpq. induction s as [|a s IH]; [done|]. cbn [Str.all].
  intros [Ha Hs]%andb_prop. by rewrite (Hpq a Ha), IH.
Qed.

Lemma all_digits_nil_empty d :
  Str.all Str.isdigit (NilEmpty.string_of_uint d) = true.
Proof.
  induction d; [done|..]; cbn [NilEmpty.string_of_uint Str.all];
    change (Str.isdigit _) with true; done.
Qed.

Lemma all_digits_string_of_uint d :
  Str.all Str.isdigit (NilZero.string_of_uint d) = true.
Proof. destruct d; [done|..]; apply (all_digits_nil_empty (_ d)). Qed.

Lemma all_digits_dec n : Str.all Str.isdigit (PyInt.dec n) = true.
Proof. apply all_digits_string_of_uint. Qed.

Lemma all_idchar_fmt_08d n : Str.all idchar (PyInt.fmt_08d n) = true.
Proof.
  unfold PyInt.fmt_08d. rewrite !all_app.
  assert (Hz : ∀ k, Str.all idchar (PyInt.zeros k) = true)
    by (induction k; [done|by cbn [PyInt.zeros Str.all]]).
  rewrite Hz.
  rewrite (all_impl Str.isdigit idchar (PyInt.dec (Z.abs_N n))).
  - by destruct (n <? 0).
  - intros a Ha. unfold idchar. by rewrite Ha.
  - apply all_digits_dec.
Qed.

Lemma fmt_08d_not_empty n : PyInt.fmt_08d n ≠ "".
Proof.
  unfold PyInt.fmt_08d, PyInt.dec.
  assert (Hd : NilZero.string_of_uint (N.to_uint (Z.abs_N n)) ≠ "")
    by (by destruct (N.to_uint (Z.abs_N n))).
  destruct (NilZero.string_of_uint _) as [|a s]; [done|].
  destruct (n <? 0); [done|].
  rewrite append_nil_l. by destruct (PyInt.zeros _).
Qed.

Lemma lstrip_keeps p s :
  Str.all (λ a, negb (p a)) s = true → Str.lstrip p s = s.
Proof.
  destruct s as [|a s]; [done|]. cbn [Str.all Str.lstrip].
  intros [Ha _]%andb_prop. apply negb_true_iff in Ha. by rewrite Ha.
Qed.

Lemma rstrip_keeps p s :
  Str.all (λ a, negb (p a)) s = true → Str.rstrip p s = s.
Proof.
  induction s as [|a s IH]; [done|]. cbn [Str.all Str.rstrip].
  intros [Ha Hs]%andb_prop. apply negb_true_iff in Ha.
  rewrite (IH Hs), Ha. by destruct s.
Qed.

Lemma idchar_plain a :
  idchar a = true →
  PyInt.isspace a = false ∧ Ascii.eqb a "+" = false
  ∧ Ascii.eqb a "." = false ∧ Ascii.eqb a "/" = false.
Proof.
  destruct a as [[|] [|] [|] [|] [|] [|] [|] [|]]; vm_compute; by intros.
Qed.

Lemma int_fmt_08d (n : Z) : PyInt.int (PyInt.fmt_08d n) = Some n.
Proof.
  unfold PyInt.int, Str.strip.
  pose proof (all_idchar_fmt_08d n) as Hall.
  assert (Hns : Str.all (λ a, negb (PyInt.isspace a)) (PyInt.fmt_08d n) = true).
  { eapply all_impl; [|exact Hall]. intros a Ha.
    apply idchar_plain in Ha as [-> _]. done. }
  rewrite lstrip_keeps, rstrip_keeps by done. clear Hns.
  pose proof (fmt_08d_not_empty n) as Hne. revert Hall Hne.
  unfold PyInt.fmt_08d. destruct (Z.ltb_spec n 0) as [Hneg|Hpos].
  - intros _ _. rewrite append_cons, append_nil_l.
    change (Ascii.eqb "-" "-") with true.
    cbn match. rewrite digits_zeros, digits_dec. cbn. f_equal. lia.
  - rewrite !append_nil_l.
    destruct (PyInt.zeros _ +:+ PyInt.dec (Z.abs_N n)) as [|a s] eqn:Hs;
      [done|].
    intros Hall _. cbn [Str.all] in Hall. apply andb_prop in Hall as [Hid _].
    assert (Hminus : Ascii.eqb a "-" = false).
    { assert (Hdig : Str.all Str.isdigit (String a s) = true).
      { rewrite <- Hs, all_app, all_digits_dec, andb_true_r.
        generalize (8 - (String.length "" + String.length
                           (PyInt.dec (Z.abs_N n))))%nat.
        intros k. induction k; [done|by cbn [PyInt.zeros Str.all]]. }
      cbn [Str.all] in Hdig. apply andb_prop in Hdig as [Ha _].
      revert Ha. clear.
      destruct a as [[|] [|] [|] [|] [|] [|] [|] [|]]; vm_compute; by intros. }
    apply idchar_plain in Hid as (_ & -> & _).
    rewrite Hminus, <- Hs, digits_zeros, digits_dec. f_equal. lia.
Qed.

Lemma rfind_from_absent c s : ∀ i acc,
  Str.all (λ a, negb (Ascii.eqb a c)) s = true → Str.rfind_from c s i acc = acc.
Proof.
  induction s as [|a s IH]; intros i acc; [done|].
  cbn [Str.all Str.rfind_from]. intros [Ha Hs]%andb_prop.
  apply negb_true_iff in Ha. rewrite Ha. by apply IH.
Qed.

Lemma rfind_from_app c s t : ∀ i acc,
  Str.rfind_from c (s +:+ t) i acc
  = Str.rfind_from c t (i + Str.len s) (Str.rfind_from c s i acc).
Proof.
  induction s as [|a s IH]; intros i acc.
  - rewrite append_nil_l. cbn. by rewrite Z.add_0_r.
  - rewrite append_cons. cbn [Str.rfind_from]. rewrite IH.
    f_equal. unfold Str.len. cbn [String.length]. lia.
Qed.

Lemma substring_all s : String.substring 0 (String.length s) s = s.
Proof. induction s as [|a s IH]; [done|]. cbn. by rewrite IH. Qed.

Lemma substring_app_l s t :
  String.substring 0 (String.length s) (s +:+ t) = s.
Proof.
  induction s as [|a s IH]; [by destruct t|].
  rewrite append_cons. cbn. by rewrite IH.
Qed.

Lemma substring_app_r s t :
  String.substring (String.length s) (String.length t) (s +:+ t) = t.
Proof.
  induction s as [|a s IH]; [apply substring_all|].
  rewrite append_cons. cbn [String.length String.substring]. apply IH.
Qed.

Lemma length_app_string s t :
  String.length (s +:+ t) = (String.length s + String.length t)%nat.
Proof.
  induction s as [|a s IH]; [done|]. rewrite append_cons. cbn. by rewrite IH.
Qed.

(** An extension holds neither a dot nor a slash. *)
Definition no_dot_or_sep (ext : string) : Prop :=
  Str.all (λ a, negb (Ascii.eqb a ".") && negb (Ascii.eqb a "/")) ext = true.

Lemma splitext_stem s ext :
  s ≠ "" → Str.all idchar s = true → no_dot_or_sep ext →
  OsPath.splitext (s +:+ String "." ext) = (s, String "." ext).
Proof.
  intros Hne Hall Hext.
  assert (Hs_dot : Str.all (λ a, negb (Ascii.eqb a ".")) s = true).
  { eapply all_impl; [|exact Hall]. intros a (_ & _ & -> & _)%idchar_plain. done. }
  assert (Hs_sep : Str.all (λ a, negb (Ascii.eqb a "/")) s = true).
  { eapply all_impl; [|exact Hall]. intros a (_ & _ & _ & ->)%idchar_plain. done. }
  assert (He_dot : Str.all (λ a, negb (Ascii.eqb a ".")) ext = true).
  { eapply all_impl; [|exact Hext]. by intros a [? _]%andb_prop. }
  assert (He_sep : Str.all (λ a, negb (Ascii.eqb a "/")) ext = true).
  { eapply all_impl; [|exact Hext]. by intros a [_ ?]%andb_prop. }
  assert (Hdot : Str.rfind OsPath.extsep (s +:+ String "." ext) = Str.len s).
  { unfold Str.rfind. rewrite rfind_from_app, (rfind_from_absent _ s) by done.
    cbn [Str.rfind_from]. change (Ascii.eqb "." OsPath.extsep) with true.
    cbn match. by rewrite rfind_from_absent. }
  assert (Hsep : Str.rfind OsPath.sep (s +:+ String "." ext) = -1).
  { unfold Str.rfind. rewrite rfind_from_app, (rfind_from_absent _ s) by done.
    cbn [Str.rfind_from]. change (Ascii.eqb "." OsPath.sep) with false.
    cbn match. by rewrite rfind_from_absent. }
  unfold OsPath.splitext. rewrite Hdot, Hsep.
  assert (Hlen : 0 <= Str.len s) by (unfold Str.len; lia).
  destruct (Z.ltb_spec (-1) (Str.len s)) as [_|?]; [|lia].
  unfold Str.slice, Str.len.
  replace (Z.to_nat (-1 + 1)) with 0%nat by lia.
  replace (Z.to_nat (Z.of_nat (String.length s) - (-1 + 1)))
    with (String.length s) by lia.
  replace (Z.to_nat (Z.of_nat (String.length s) - 0))
    with (String.length s) by lia.
  replace (Z.to_nat (Z.of_nat (String.length s))) with (String.length s) by lia.
  rewrite length_app_string.
  replace (Z.to_nat (Z.of_nat (String.length s + String.length (String "." ext))
                     - Z.of_nat (String.length s)))
    with (String.length (String "." ext)) by lia.
  change (Z.to_nat 0) with 0%nat.
  rewrite !substring_app_l, substring_app_r.
  destruct s as [|a s]; [done|]. cbn [Str.all] in *.
  apply andb_prop in Hs_dot as [Ha _]. apply negb_true_iff in Ha.
  rewrite Ascii.eqb_sym in Ha. unfold OsPath.extsep. by rewrite Ha.
Qed.

(** X11. A color file named by an integer written with ['%08d'], followed
    by a dot and an extension without dot or slash, is read back as that
    integer, negative or not; so for a [.jpg] file the image path the
    manifest gives for it is the path of the listed file itself. *)
Theorem color_name_round_trip (n : Z) (ext scene path : string) :
  no_dot_or_sep ext →
  PyInt.int (OsPath.splitext (PyInt.fmt_08d n +:+ String "." ext)).1 = Some n
  ∧ ∀ frame_id,
      PyInt.int (OsPath.splitext (PyInt.fmt_08d n +:+ ".jpg")).1
        = Some frame_id →
      sample_image scene path frame_id
      = OsPath.join path [scene; "color"; PyInt.fmt_08d n +:+ ".jpg"].
Proof.
  intros Hext.
  assert (Hrt : ∀ e, no_dot_or_sep e →
    PyInt.int (OsPath.splitext (PyInt.fmt_08d n +:+ String "." e)).1 = Some n).
  { intros e He. rewrite splitext_stem; [apply int_fmt_08d|..|done].
    - apply fmt_08d_not_empty.
    - apply all_idchar_fmt_08d. }
  split; [by apply Hrt|].
  intros frame_id Hid. change ".jpg" with (String "." "jpg") in Hid.
  rewrite Hrt in Hid by done. by injection Hid as <-.
Qed.

(** ** The newline at the end of [pose.txt] *)

Lemma rstrip_snoc p s c :
  p c = true → Str.rstrip p (s +:+ String c "") = Str.rstrip p s.
Proof.
  intros Hc. induction s as [|a s IH].
  - rewrite append_nil_l. cbn. by rewrite Hc.
  - rewrite append_cons. cbn [Str.rstrip]. by rewrite IH.
Qed.

Lemma lstrip_snoc p s c :
  p c = true →
  Str.lstrip p (s +:+ String c "")
  = if Str.all p s then "" else Str.lstrip p s +:+ String c "".
Proof.
  intros Hc. induction s as [|a s IH].
  - rewrite append_nil_l. cbn. by rewrite Hc.
  - rewrite append_cons. cbn [Str.lstrip Str.all].
    destruct (p a); [by rewrite IH|done].
Qed.

Lemma lstrip_all p s : Str.all p s = true → Str.lstrip p s = "".
Proof.
  induction s as [|a s IH]; [done|]. cbn [Str.all Str.lstrip].
  intros [-> Hs]%andb_prop. by apply IH.
Qed.

Lemma strip_snoc p s c :
  p c = true → Str.strip p (s +:+ String c "") = Str.strip p s.
Proof.
  intros Hc. unfold Str.strip. rewrite lstrip_snoc by done.
  destruct (Str.all p s) eqn:Hall.
  - by rewrite lstrip_all.
  - by rewrite rstrip_snoc.
Qed.

Lemma parse_line_newline np_float32 line :
  parse_line np_float32 (line +:+ Scenes.nl) = parse_line np_float32 line.
Proof.
  unfold parse_line, line_words, Scenes.nl.
  by rewrite strip_snoc by apply Ascii.eqb_refl.
Qed.

(** The lines of a text that does not end in a newline, and the lines of
    the same text with a newline added: the same, but for the newline at the
    end of the last one. *)
Lemma readlines_final_newline text :
  text ≠ "" → Str.endswith Str.nl text = false →
  Forall2 (λ l l', l = l' ∨ l = l' +:+ Scenes.nl)
    (Str.readlines (text +:+ Scenes.nl)) (Str.readlines text).
Proof.
  induction text as [|a text IH]; [done|]. intros _ Hend.
  rewrite append_cons. cbn [Str.readlines].
  destruct text as [|b text].
  - rewrite append_nil_l. cbn [Str.endswith] in Hend. rewrite Hend.
    cbn. constructor; [by right|constructor].
  - assert (Hend' : Str.endswith Str.nl (String b text) = false) by done.
    specialize (IH ltac:(done) Hend').
    destruct (Ascii.eqb a Str.nl).
    + constructor; [by left|done].
    + destruct IH as [|l l' ls ls' [-> | ->] Hrest].
      * constructor; [by left|constructor].
      * constructor; [by left|done].
      * constructor; [by right|done].
Qed.

Lemma for_each_Forall2_ext {A B} (f : A → E B) (l l' : list A) :
  Forall2 (λ a a', f a = f a') l l' → for_each f l = for_each f l'.
Proof.
  induction 1 as [|a a' l l' Ha _ IH]; [done|].
  cbn [for_each]. by rewrite Ha, IH.
Qed.

(** X12. In variant B, a [pose.txt] whose last line has no newline and the
    same file with that newline added give the same run: the same result,
    the same manifest, the same text printed. *)
Theorem final_newline_makes_no_difference np_float32 fs fs' os scene path
    path_meta verbose w text :
  files fs !! OsPath.join path [scene; "pose.txt"] = Some text →
  files fs' !! OsPath.join path [scene; "pose.txt"]
    = Some (text +:+ Scenes.nl) →
  text ≠ "" → Str.endswith Str.nl text = false →
  prepare_test_scene np_float32 fs' os scene path path_meta verbose w
  = prepare_test_scene np_float32 fs os scene path path_meta verbose w.
Proof.
  intros Hfs Hfs' Hne Hend.
  assert (Htable : read_table np_float32 fs' scene path
                   = read_table np_float32 fs scene path).
  { rewrite !read_table_parsed. unfold parsed_lines, read_text.
    rewrite Hfs, Hfs'. cbn [try]. unfold mbind at 2 4, E_bind at 2 4.
    erewrite for_each_Forall2_ext; [done|].
    eapply Forall2_impl; [by apply readlines_final_newline|].
    intros l l' [-> | ->]; [done|apply parse_line_newline]. }
  unfold prepare_test_scene. by rewrite Htable.
Qed.

(** ** What a run reads *)




(** The part of a run that comes before the manifest is written. *)
Lemma prepare_then_write np_float32 loadtxt_text fs os v (scene path : string)
    (verbose : Z) (w : world) :
  ∃ w1 r,
    (∀ pm, prepare np_float32 loadtxt_text fs os v scene path pm verbose w
           = match r with
             | inl e => (w1, inl e)
             | inr frames =>
                 write_manifest os (info_dir pm scene) (info_json pm scene)
                   (json_of_data path scene frames) w1
             end).
Proof.
  destruct v; unfold prepare.
  - unfold prepare_sample_scene.
    destruct (np_loadtxt loadtxt_text fs _) as [e|intr].
    { exists (add_stdout (scene_msgs scene verbose) w), (inl e). intros pm.
      by rewrite !bind_run, when_print_run. }
    destruct (sample_frame_ids fs scene path) as [e|ids].
    { exists (add_stdout (scene_msgs scene verbose) w), (inl e). intros pm.
      by rewrite !bind_run, when_print_run. }
    destruct (sample_frames loadtxt_text fs scene path verbose intr (length ids)
                0 ids [] (add_stdout (scene_msgs scene verbose) w))
      as [w1 r] eqn:Hloop.
    exists w1, r. intros pm.
    rewrite !bind_run, when_print_run. unfold lift.
    rewrite !bind_run, Hloop. by destruct r.
  - unfold prepare_test_scene.
    destruct (read_table np_float32 fs scene path) as [e|st].
    { exists (add_stdout (scene_msgs scene verbose) w), (inl e). intros pm.
      by rewrite !bind_run, when_print_run. }
    destruct (test_frames scene path verbose st (length (frame_ids st)) 0
                (frame_ids st) [] (add_stdout (scene_msgs scene verbose) w))
      as [w1 r] eqn:Hloop.
    exists w1, r. intros pm.
    rewrite !bind_run, when_print_run. unfold lift.
    rewrite !bind_run, Hloop. by destruct r.
Qed.

(** X15. [path_meta] decides where the manifest goes, and with it whether
    it can be written, and nothing else: two runs that differ in it and
    both end well have printed the same, and each leaves, at its own
    [info.json], the same document. *)
Theorem path_meta_only_places_manifest np_float32 loadtxt_text fs os v scene
    path path_meta path_meta' verbose w w1 w2 :
  prepare np_float32 loadtxt_text fs os v scene path path_meta verbose w
    = (w1, inr tt) →
  prepare np_float32 loadtxt_text fs os v scene path path_meta' verbose w
    = (w2, inr tt) →
  stdout w1 = stdout w2
  ∧ ∃ doc, dumped w1 !! info_json path_meta scene = Some doc
      ∧ dumped w2 !! info_json path_meta' scene = Some doc.
Proof.
  destruct (prepare_then_write np_float32 loadtxt_text fs os v scene path
              verbose w) as (w0 & r & Hrun).
  rewrite !Hrun. destruct r as [e|frames]; [done|].
  intros (_ & Hd1 & Hs1)%write_manifest_returns
         (_ & Hd2 & Hs2)%write_manifest_returns.
  split; [congruence|].
  exists (json_of_data path scene frames).
  by rewrite Hd1, Hd2, !lookup_insert_eq.
Qed.

(** ** The claims on concrete scenes *)

Import Scenes.

Local Open Scope string_scope.

(** A scene of variant B whose second line has a NaN in its translation. *)
Definition fsB_nan : filesystem :=
  fsB (line_f1 +:+ nl +:+ line_f3_nan +:+ nl +:+ line_f2 +:+ nl).

(** C1 on the scene [s1] of variant A and on a pose table with a NaN. *)
Lemma C1_witness :
  (∃ records frames,
     candidates lit_float32 lit_loadtxt fsA PerFrameFiles "s1" "/data"
       = inr records
     ∧ dumped (prepare lit_float32 lit_loadtxt fsA disk PerFrameFiles
                 "s1" "/data" "/out" 2 w0).1 !! "/out/s1/info.json"
       = Some (json_of_data "/data" "s1" frames)
     ∧ frames = filter (λ f, valid f = true) records
     ∧ (∀ f, f ∈ frames ↔ f ∈ records ∧ ¬ has_nonfinite (pose f))
     ∧ Forall (λ f, all_isfinite (pose f) = true) frames)
  ∧ (∃ records frames,
     candidates lit_float32 lit_loadtxt fsB_nan PoseTable "s2" "/data"
       = inr records
     ∧ dumped (prepare lit_float32 lit_loadtxt fsB_nan disk PoseTable
                 "s2" "/data" "/out" 2 w0).1 !! "/out/s2/info.json"
       = Some (json_of_data "/data" "s2" frames)
     ∧ frames = filter (λ f, valid f = true) records
     ∧ (∀ f, f ∈ frames ↔ f ∈ records ∧ ¬ has_nonfinite (pose f))
     ∧ Forall (λ f, all_isfinite (pose f) = true) frames).
Proof.
  split.
  - apply (C1_manifest_poses_finite lit_float32 lit_loadtxt fsA disk
             PerFrameFiles "s1" "/data" "/out" 2 w0). vm_compute. reflexivity.
  - apply (C1_manifest_poses_finite lit_float32 lit_loadtxt fsB_nan disk
             PoseTable "s2" "/data" "/out" 2 w0). vm_compute. reflexivity.
Defined.

(** A scene of variant B of two lines with different intrinsics. *)
Definition two_lines_txt : string := line_f1 +:+ nl +:+ line_f2 +:+ nl.

(** C2 on the pose table of two lines. *)
Lemma C2_witness :
  ∃ rows records doc items,
    np_array lit_float32 (lslice 1 10 (line_words (line_f2 +:+ nl)))
      ≫= reshape 3 3 = Some rows
    ∧ test_candidates lit_float32 (fsB two_lines_txt) "s2" "/data"
      = inr records
    ∧ dumped (prepare_test_scene lit_float32 (fsB two_lines_txt) disk
                "s2" "/data" "/out" 0 w0).1 !! info_json "/out" "s2"
      = Some doc
    ∧ manifest doc "/data" "s2" (filter (λ f, valid f = true) records)
    ∧ json_get "frames" doc = Some (JArray items)
    ∧ Forall (λ item, json_get "intrinsics" item = Some (json_rows rows))
        items.
Proof.
  apply (C2_intrinsics_of_last_line lit_float32 lit_loadtxt
           (fsB two_lines_txt) disk "s2" "/data" "/out" 0 w0 _
           two_lines_txt (line_f2 +:+ nl)).
  - vm_compute. reflexivity.
  - vm_compute. reflexivity.
  - vm_compute. reflexivity.
Defined.

(** The two elements of [frames] of that scene both have the intrinsics of
    the second line. *)
Definition diag221 : ndarray :=
  Matrix [[two; zero; zero]; [zero; two; zero]; [zero; zero; one]].

Definition eye4_json : json :=
  JArray [JArray [JNumber one; JNumber zero; JNumber zero; JNumber zero];
          JArray [JNumber zero; JNumber one; JNumber zero; JNumber zero];
          JArray [JNumber zero; JNumber zero; JNumber one; JNumber zero];
          JArray [JNumber zero; JNumber zero; JNumber zero; JNumber one]].

Definition eye3_json : json :=
  JArray [JArray [JNumber one; JNumber zero; JNumber zero];
          JArray [JNumber zero; JNumber one; JNumber zero];
          JArray [JNumber zero; JNumber zero; JNumber one]].

Definition diag221_json : json :=
  JArray [JArray [JNumber two; JNumber zero; JNumber zero];
          JArray [JNumber zero; JNumber two; JNumber zero];
          JArray [JNumber zero; JNumber zero; JNumber one]].

Example two_lines_intrinsics :
  dumped (prepare_test_scene lit_float32 (fsB two_lines_txt) disk
            "s2" "/data" "/out" 0 w0).1 !! "/out/s2/info.json"
  = Some (JObject
      [("dataset", JString "sample");
       ("path", JString "/data");
       ("scene", JString "s2");
       ("frames", JArray
          [JObject [("file_name_image", JString "/data/s2/color/f1");
                    ("intrinsics", diag221_json);
                    ("pose", eye4_json)];
           JObject [("file_name_image", JString "/data/s2/color/f2");
                    ("intrinsics", diag221_json);
                    ("pose", eye4_json)]])]).
Proof. vm_compute. reflexivity. Qed.

(** The first frame of the scene [s1] under the source root [/data]. *)
Definition frame_1 : frame :=
  {| file_name_image := "/data/s1/color/00000001.jpg";
     intrinsics := eye3; pose := eye4 |}.

Definition frame_10 : frame :=
  {| file_name_image := "/data/s1/color/00000010.jpg";
     intrinsics := eye3; pose := eye4 |}.

(** The document written for the scene [s1] under the source root
    [/data]. *)
Definition s1_json : json :=
  JObject
    [("dataset", JString "sample");
     ("path", JString "/data");
     ("scene", JString "s1");
     ("frames", JArray
        [JObject [("file_name_image", JString "/data/s1/color/00000001.jpg");
                  ("intrinsics", eye3_json);
                  ("pose", eye4_json)];
         JObject [("file_name_image", JString "/data/s1/color/00000010.jpg");
                  ("intrinsics", eye3_json);
                  ("pose", eye4_json)]])].

(** C3 as it is stated fails: for the scene [s1] under the source root
    [/data], the first frame has a finite pose and its image path is
    [/data/s1/color/00000001.jpg], which is not [s1/color/<id>.jpg] for any
    identifier. *)
Lemma C3_counterexample :
  (prepare_sample_scene lit_loadtxt fsA disk "s1" "/data" "/out" 0 w0).2
    = inr tt
  ∧ dumped (prepare_sample_scene lit_loadtxt fsA disk "s1" "/data" "/out" 0
              w0).1 !! "/out/s1/info.json"
    = Some s1_json
  ∧ np_loadtxt lit_loadtxt fsA "/data/s1/pose/00000001.txt" = inr eye4
  ∧ all_isfinite eye4 = true
  ∧ "/data/s1/color/00000001.jpg" ≠ OsPath.join "s1" ["color"; "00000001.jpg"]
  ∧ ∀ frame_id : Z,
      "/data/s1/color/00000001.jpg"
      ≠ "s1" +:+ "/color/" +:+ PyInt.fmt_08d frame_id +:+ ".jpg".
Proof.
  split; [vm_compute; reflexivity|].
  split; [vm_compute; reflexivity|].
  split; [vm_compute; reflexivity|].
  split; [reflexivity|].
  split; [vm_compute; discriminate|].
  intros frame_id. rewrite !append_cons. discriminate.
Qed.

(** The amended C3 on the scene [s1]. *)
Lemma C3_witness :
  ∃ names ids records doc items,
    listed_ids fsA "s1" "/data" names ids
    ∧ sample_candidates lit_loadtxt fsA "s1" "/data" = inr records
    ∧ dumped (prepare_sample_scene lit_loadtxt fsA disk "s1" "/data" "/out" 0
                w0).1 !! info_json "/out" "s1"
      = Some doc
    ∧ manifest doc "/data" "s1" (filter (λ f, valid f = true) records)
    ∧ json_get "frames" doc = Some (JArray items)
    ∧ Forall (λ item, ∃ frame_id, frame_id ∈ ids ∧
          json_get "file_name_image" item
          = Some (JString (OsPath.join "/data"
                    ["s1"; "color"; PyInt.fmt_08d frame_id +:+ ".jpg"])))
        items
    ∧ ∀ frame_id P, frame_id ∈ ids →
        np_loadtxt lit_loadtxt fsA (sample_pose_file "s1" "/data" frame_id)
          = inr P →
        all_isfinite P = true →
        ∃ item j, item ∈ items
          ∧ json_get "file_name_image" item
            = Some (JString (OsPath.join "/data"
                      ["s1"; "color"; PyInt.fmt_08d frame_id +:+ ".jpg"]))
          ∧ json_get "pose" item = Some j ∧ holds j P.
Proof.
  apply (C3_image_path_joined lit_float32 lit_loadtxt fsA disk
           "s1" "/data" "/out" 0 w0).
  vm_compute. reflexivity.
Defined.

(** C4 on the scene [s1] and on the pose table with a NaN. *)
Lemma C4_witness :
  (∃ records doc items,
     dumped (prepare lit_float32 lit_loadtxt fsA disk PerFrameFiles
               "s1" "/data" "/out" 2 w0).1 !! info_json "/out" "s1"
       = Some doc
     ∧ manifest doc "/data" "s1" (filter (λ f, valid f = true) records)
     ∧ json_get "frames" doc = Some (JArray items)
     ∧ ∃ names ids kept,
         listed_ids fsA "s1" "/data" names ids
         ∧ sorted ids ≡ₚ ids
         ∧ Sorted Z.le (sorted ids)
         ∧ Forall2 (λ frame_id f,
               file_name_image f = sample_image "s1" "/data" frame_id
               ∧ np_loadtxt lit_loadtxt fsA
                   (sample_pose_file "s1" "/data" frame_id) = inr (pose f))
             (sorted ids) records
         ∧ kept `sublist_of` sorted ids
         ∧ Sorted Z.le kept
         ∧ Forall2 (λ frame_id item,
               json_get "file_name_image" item
               = Some (JString (sample_image "s1" "/data" frame_id)))
             kept items)
  ∧ (∃ records doc items,
     dumped (prepare lit_float32 lit_loadtxt fsB_nan disk PoseTable
               "s2" "/data" "/out" 2 w0).1 !! info_json "/out" "s2"
       = Some doc
     ∧ manifest doc "/data" "s2" (filter (λ f, valid f = true) records)
     ∧ json_get "frames" doc = Some (JArray items)
     ∧ ∃ lines parsed kept,
         table_lines lit_float32 fsB_nan "s2" "/data" lines parsed
         ∧ Forall2 (λ line x, line_words line !! 0%nat = Some (token_of x))
             lines parsed
         ∧ Forall2 (λ x f,
               file_name_image f = test_image "s2" "/data" (token_of x)
               ∧ last_pose parsed (token_of x) = Some (pose f))
             parsed records
         ∧ kept `sublist_of` parsed
         ∧ Forall2 (λ x item,
               json_get "file_name_image" item
               = Some (JString (test_image "s2" "/data" (token_of x))))
             kept items).
Proof.
  split.
  - apply (C4_frames_order lit_float32 lit_loadtxt fsA disk PerFrameFiles
             "s1" "/data" "/out" 2 w0). vm_compute. reflexivity.
  - apply (C4_frames_order lit_float32 lit_loadtxt fsB_nan disk PoseTable
             "s2" "/data" "/out" 2 w0). vm_compute. reflexivity.
Defined.

(** The images of the scene [s1] are listed as 10, 2, 1; frame 2 has no
    valid pose; the manifest has frame 1, then frame 10. *)
Example sample_scene_manifest :
  prepare_sample_scene lit_loadtxt fsA disk "s1" "/data" "/out" 2 w0
  = ({| stdout := ["preparing s1"; "preparing s1 frame 0/3"];
        made := {["/out"; "/out/s1"]};
        dumped := {["/out/s1/info.json" := s1_json]} |},
     inr tt)
  ∧ json_of_data "/data" "s1" [frame_1; frame_10] = s1_json.
Proof. split; vm_compute; reflexivity. Qed.

(** Scenes that cannot be read. *)
Definition fs_nothing : filesystem := {| files := ∅; listings := ∅ |}.

Definition fsA_named (names : list string) : filesystem :=
  {| files := list_to_map
       [("/data/s1/intrinsics.txt", eye3_txt);
        ("/data/s1/pose/00000001.txt", eye4_txt);
        ("/data/s1/pose/00000002.txt", nan4_txt)];
     listings := list_to_map [("/data/s1/color", names)] |}.

Definition fsA_no_color : filesystem :=
  {| files := list_to_map [("/data/s1/intrinsics.txt", eye3_txt)];
     listings := ∅ |}.

Definition short_line : string := "f1 1 0 0".

(** C5 on six scenes, one for each kind of fatal input. *)
Lemma C5_witness :
  (∃ w' e,
     prepare lit_float32 lit_loadtxt fs_nothing disk PerFrameFiles
       "s1" "/data" "/out" 2 w0 = (w', inl e)
     ∧ dumped w' = dumped w0
     ∧ dumped w' !! info_json "/out" "s1" = dumped w0 !! info_json "/out" "s1"
     ∧ made w' = made w0)
  ∧ (∃ w' e,
     prepare lit_float32 lit_loadtxt fsA_no_color disk PerFrameFiles
       "s1" "/data" "/out" 2 w0 = (w', inl e)
     ∧ dumped w' = dumped w0
     ∧ dumped w' !! info_json "/out" "s1" = dumped w0 !! info_json "/out" "s1"
     ∧ made w' = made w0)
  ∧ (∃ w' e,
     prepare lit_float32 lit_loadtxt (fsA_named ["1.jpg"; "cover.jpg"]) disk
       PerFrameFiles "s1" "/data" "/out" 2 w0 = (w', inl e)
     ∧ dumped w' = dumped w0
     ∧ dumped w' !! info_json "/out" "s1" = dumped w0 !! info_json "/out" "s1"
     ∧ made w' = made w0)
  ∧ (∃ w' e,
     prepare lit_float32 lit_loadtxt (fsA_named ["1.jpg"; "3.jpg"]) disk
       PerFrameFiles "s1" "/data" "/out" 2 w0 = (w', inl e)
     ∧ dumped w' = dumped w0
     ∧ dumped w' !! info_json "/out" "s1" = dumped w0 !! info_json "/out" "s1"
     ∧ made w' = made w0)
  ∧ (∃ w' e,
     prepare lit_float32 lit_loadtxt fs_nothing disk PoseTable
       "s2" "/data" "/out" 2 w0 = (w', inl e)
     ∧ dumped w' = dumped w0
     ∧ dumped w' !! info_json "/out" "s2" = dumped w0 !! info_json "/out" "s2"
     ∧ made w' = made w0)
  ∧ (∃ w' e,
     prepare lit_float32 lit_loadtxt (fsB (line_f1 +:+ nl +:+ short_line)) disk
       PoseTable "s2" "/data" "/out" 2 w0 = (w', inl e)
     ∧ dumped w' = dumped w0
     ∧ dumped w' !! info_json "/out" "s2" = dumped w0 !! info_json "/out" "s2"
     ∧ made w' = made w0).
Proof.
  repeat split.
  - apply (C5_fatal_error_writes_nothing lit_float32 lit_loadtxt fs_nothing
             disk PerFrameFiles "s1" "/data" "/out" 2 w0).
    apply no_intrinsics. vm_compute. reflexivity.
  - apply (C5_fatal_error_writes_nothing lit_float32 lit_loadtxt fsA_no_color
             disk PerFrameFiles "s1" "/data" "/out" 2 w0).
    apply no_color_directory. vm_compute. reflexivity.
  - apply (C5_fatal_error_writes_nothing lit_float32 lit_loadtxt
             (fsA_named ["1.jpg"; "cover.jpg"]) disk
             PerFrameFiles "s1" "/data" "/out" 2 w0).
    apply (color_name_not_integer _ _ _ _ ["1.jpg"; "cover.jpg"] "cover.jpg").
    + vm_compute. reflexivity.
    + right. left.
    + vm_compute. reflexivity.
  - apply (C5_fatal_error_writes_nothing lit_float32 lit_loadtxt
             (fsA_named ["1.jpg"; "3.jpg"]) disk
             PerFrameFiles "s1" "/data" "/out" 2 w0).
    apply (no_pose_file _ _ _ _ ["1.jpg"; "3.jpg"] "3.jpg" 3).
    + vm_compute. reflexivity.
    + right. left.
    + vm_compute. reflexivity.
    + vm_compute. reflexivity.
  - apply (C5_fatal_error_writes_nothing lit_float32 lit_loadtxt fs_nothing
             disk PoseTable "s2" "/data" "/out" 2 w0).
    apply no_pose_table. vm_compute. reflexivity.
  - apply (C5_fatal_error_writes_nothing lit_float32 lit_loadtxt
             (fsB (line_f1 +:+ nl +:+ short_line)) disk
             PoseTable "s2" "/data" "/out" 2 w0).
    apply (malformed_line _ _ _ _ (line_f1 +:+ nl +:+ short_line) short_line).
    + vm_compute. reflexivity.
    + right. left.
    + left. vm_compute. lia.
Defined.

(** A line of 22 tokens separated by tabs. *)
Definition tab : string := String "009"%char EmptyString.

Definition tabbed_line : string :=
  "f1" +:+ tab +:+ "1" +:+ tab +:+ "0" +:+ tab +:+ "0" +:+ tab +:+ "0" +:+ tab
    +:+ "1" +:+ tab +:+ "0" +:+ tab +:+ "0" +:+ tab +:+ "0" +:+ tab +:+ "1"
    +:+ tab +:+ "1" +:+ tab +:+ "0" +:+ tab +:+ "0" +:+ tab +:+ "0" +:+ tab
    +:+ "1" +:+ tab +:+ "0" +:+ tab +:+ "0" +:+ tab +:+ "0" +:+ tab +:+ "1"
    +:+ tab +:+ "0" +:+ tab +:+ "0" +:+ tab +:+ "0".

(** The frame of a line that starts with a space: its token is empty. *)
Definition frame_unnamed : frame :=
  {| file_name_image := "/data/s2/color/"; intrinsics := eye3; pose := eye4 |}.

(** C6 as it is stated fails: the line [identity_fields] starts with a space
    and has 21 white-space separated tokens, fewer than 22, yet splitting it
    at single spaces gives 22 fields, the first of them empty; the line
    parses and the builder writes a manifest with its frame. The other way
    round, a line of 22 tokens separated by tabs is one single field for the
    builder, which raises. *)
Lemma C6_counterexample :
  (length (ws_tokens identity_fields) < 22)%nat
  ∧ length (line_words identity_fields) = 22%nat
  ∧ parse_line lit_float32 identity_fields = inr ("", eye3, eye4)
  ∧ prepare_test_scene lit_float32 (fsB (identity_fields +:+ nl)) disk
      "s2" "/data" "/out" 0 w0
    = ({| stdout := []; made := {["/out"; "/out/s2"]};
          dumped := {["/out/s2/info.json" :=
                       json_of_data "/data" "s2" [frame_unnamed]]} |},
       inr tt)
  ∧ length (ws_tokens tabbed_line) = 22%nat
  ∧ (prepare_test_scene lit_float32 (fsB (tabbed_line +:+ nl)) disk
       "s2" "/data" "/out" 0 w0).2 = inl ValueError.
Proof.
  split; [vm_compute; lia|].
  repeat split; vm_compute; reflexivity.
Qed.

(** The amended C6 on a pose table whose second line is short. *)
Lemma C6_witness :
  ∃ w', prepare_test_scene lit_float32 (fsB (line_f1 +:+ nl +:+ short_line))
          disk "s2" "/data" "/out" 2 w0
        = (w', inl ValueError)
    ∧ dumped w' = dumped w0.
Proof.
  apply (C6_malformed_line_raises lit_float32 lit_loadtxt
           (fsB (line_f1 +:+ nl +:+ short_line)) disk "s2" "/data" "/out" 2 w0
           (line_f1 +:+ nl +:+ short_line) short_line).
  - vm_compute. reflexivity.
  - right. left.
  - left. vm_compute. lia.
Defined.

(** A field that is not a number is as fatal as a missing one. *)
Example not_a_number_raises :
  malformed lit_float32 "f1 1 0 0 0 1 0 0 0 1 1 0 0 0 1 0 0 0 1 0 zero 0"
  ∧ parse_line lit_float32 "f1 1 0 0 0 1 0 0 0 1 1 0 0 0 1 0 0 0 1 0 zero 0"
    = inl ValueError.
Proof.
  split; [|vm_compute; reflexivity].
  right. exists 20%nat, "zero". split; [lia|]. split; vm_compute; reflexivity.
Qed.

(** C7 on the token [f1]. *)
Lemma C7_witness :
  parse_line lit_float32 ("f1" +:+ identity_fields +:+ "")
  = inr ("f1", eye3, eye4)
  ∧ eye4
    = assemble [[one; zero; zero]; [zero; one; zero]; [zero; zero; one]]
        [[zero]; [zero]; [zero]].
Proof.
  apply (C7_identity_line lit_float32 "f1" false); reflexivity.
Defined.

(** The line of the specification, as it is written. *)
Example identity_line_f1 :
  line_f1 = "f1" +:+ identity_fields
  ∧ parse_line lit_float32 line_f1 = inr ("f1", eye3, eye4)
  ∧ parse_line lit_float32 (line_f1 +:+ nl) = inr ("f1", eye3, eye4).
Proof. repeat split; vm_compute; reflexivity. Qed.

(** Scenes without a valid pose. *)
Definition nan_lines_txt : string :=
  line_f3_nan +:+ nl +:+ line_f3_nan +:+ nl.

(** The manifest of a scene can be written under [/out] when nothing was
    written before. *)
Ltac writable_under_out dir :=
  exists ({["/out"; dir]} : gset string); split; vm_compute; reflexivity.

(** C8 on scenes without frames and on scenes whose only poses hold a NaN. *)
Lemma C8_witness :
  (∃ w',
     prepare lit_float32 lit_loadtxt (fsA_named []) disk PerFrameFiles
       "s1" "/data" "/out" 2 w0 = (w', inr tt)
     ∧ dumped w' !! info_json "/out" "s1"
       = Some (JObject [("dataset", JString "sample");
                        ("path", JString "/data");
                        ("scene", JString "s1");
                        ("frames", JArray [])]))
  ∧ (∃ w',
     prepare lit_float32 lit_loadtxt (fsA_named ["2.jpg"]) disk PerFrameFiles
       "s1" "/data" "/out" 2 w0 = (w', inr tt)
     ∧ dumped w' !! info_json "/out" "s1"
       = Some (JObject [("dataset", JString "sample");
                        ("path", JString "/data");
                        ("scene", JString "s1");
                        ("frames", JArray [])]))
  ∧ (∃ w',
     prepare lit_float32 lit_loadtxt (fsB "") disk PoseTable
       "s2" "/data" "/out" 2 w0 = (w', inr tt)
     ∧ dumped w' !! info_json "/out" "s2"
       = Some (JObject [("dataset", JString "sample");
                        ("path", JString "/data");
                        ("scene", JString "s2");
                        ("frames", JArray [])]))
  ∧ (∃ w',
     prepare lit_float32 lit_loadtxt (fsB nan_lines_txt) disk PoseTable
       "s2" "/data" "/out" 2 w0 = (w', inr tt)
     ∧ dumped w' !! info_json "/out" "s2"
       = Some (JObject [("dataset", JString "sample");
                        ("path", JString "/data");
                        ("scene", JString "s2");
                        ("frames", JArray [])])).
Proof.
  repeat split.
  - apply (C8_no_valid_pose_empty_manifest lit_float32 lit_loadtxt
             (fsA_named []) disk PerFrameFiles "s1" "/data" "/out" 2 w0);
      [|writable_under_out "/out/s1"].
    apply (no_valid_pose_file _ _ _ _ _ eye3 [] []).
    + vm_compute. reflexivity.
    + split; [vm_compute; reflexivity|constructor].
    + constructor.
  - apply (C8_no_valid_pose_empty_manifest lit_float32 lit_loadtxt
             (fsA_named ["2.jpg"]) disk PerFrameFiles "s1" "/data" "/out" 2 w0);
      [|writable_under_out "/out/s1"].
    apply (no_valid_pose_file _ _ _ _ _ eye3 ["2.jpg"] [2]).
    + vm_compute. reflexivity.
    + split; [vm_compute; reflexivity|].
      constructor; [vm_compute; reflexivity|constructor].
    + constructor; [|constructor].
      eexists. split; [vm_compute; reflexivity|reflexivity].
  - apply (C8_no_valid_pose_empty_manifest lit_float32 lit_loadtxt
             (fsB "") disk PoseTable "s2" "/data" "/out" 2 w0);
      [|writable_under_out "/out/s2"].
    apply (no_valid_pose_line _ _ _ _ _ [] []); [|constructor].
    exists "". split; [vm_compute; reflexivity|]. split; [reflexivity|constructor].
  - apply (C8_no_valid_pose_empty_manifest lit_float32 lit_loadtxt
             (fsB nan_lines_txt) disk PoseTable "s2" "/data" "/out" 2 w0);
      [|writable_under_out "/out/s2"].
    eapply no_valid_pose_line.
    + exists nan_lines_txt. split; [vm_compute; reflexivity|].
      split; [reflexivity|]. apply for_each_Forall2. vm_compute. reflexivity.
    + repeat constructor.
Defined.

(** Where the manifest cannot be written, the run raises although the scene
    reads well: with an empty scene and an empty [path_meta],
    [os.makedirs] is asked for the empty path; and with [path_meta/scene]
    the path of a document, it is asked for the path of a file. *)
Definition fs_flat : filesystem :=
  {| files := list_to_map [("/data/pose.txt", "")]; listings := ∅ |}.

Example output_not_writable :
  prepare_test_scene lit_float32 fs_flat disk "" "/data" "" 0 w0
    = (w0, inl (OSError FileNotFound ""))
  ∧ prepare_test_scene lit_float32 (fsB "") disk "s2" "/data" "/out" 0
      {| stdout := []; made := ∅; dumped := {["/out/s2" := JArray []]} |}
    = ({| stdout := []; made := ∅; dumped := {["/out/s2" := JArray []]} |},
       inl (OSError FileExists "/out/s2")).
Proof. split; vm_compute; reflexivity. Qed.

(** What the reads answer for a path of the wrong kind, and what [int]
    makes of a name that starts with a separator character. *)
Example wrong_kind_of_path :
  listdir fsA "/data/s1/intrinsics.txt"
    = inl (NotADirectoryError "/data/s1/intrinsics.txt")
  ∧ read_text fsA "/data/s1/color" = inl (IsADirectoryError "/data/s1/color")
  ∧ read_text fsA "/data/s1/colour" = inl (FileNotFoundError "/data/s1/colour")
  ∧ Str.isspace "028" = true
  ∧ PyInt.int (String "028" "5") = None
  ∧ PyInt.int (String "009" "5") = Some 5.
Proof. repeat split; vm_compute; reflexivity. Qed.

(** A pose table in which the token [f1] comes twice, first with the
    translation (1, 0, 0), then with (2, 0, 0). *)
Definition line_f1_moved : string :=
  "f1 1 0 0 0 1 0 0 0 1 1 0 0 0 1 0 0 0 1 1 0 0".
Definition line_f1_again : string :=
  "f1 1 0 0 0 1 0 0 0 1 1 0 0 0 1 0 0 0 1 2 0 0".

Definition repeated_txt : string :=
  line_f1_moved +:+ nl +:+ line_f2 +:+ nl +:+ line_f1_again +:+ nl.

Definition moved (x : float) : ndarray :=
  Matrix [[one; zero; zero; x]; [zero; one; zero; zero];
          [zero; zero; one; zero]; [zero; zero; zero; one]].

Definition repeated_parsed : list (string * ndarray * ndarray) :=
  [("f1", eye3, moved one); ("f2", diag221, eye4); ("f1", eye3, moved two)].

(** C10 on the pose table in which [f1] comes twice. *)
Lemma C10_witness :
  ∃ w' records doc items,
    prepare_test_scene lit_float32 (fsB repeated_txt) disk
      "s2" "/data" "/out" 2 w0
      = (w', inr tt)
    ∧ dumped w' !! info_json "/out" "s2" = Some doc
    ∧ manifest doc "/data" "s2" (filter (λ f, valid f = true) records)
    ∧ json_get "frames" doc = Some (JArray items)
    ∧ Forall2 (λ x f,
          file_name_image f = test_image "s2" "/data" (token_of x)
          ∧ last_pose repeated_parsed (token_of x) = Some (pose f))
        repeated_parsed records
    ∧ (Forall (λ x, all_isfinite (pose_of x) = true) repeated_parsed →
       Forall2 (λ x item, ∃ P j,
           json_get "file_name_image" item
           = Some (JString (test_image "s2" "/data" (token_of x)))
           ∧ last_pose repeated_parsed (token_of x) = Some P
           ∧ json_get "pose" item = Some j ∧ holds j P)
         repeated_parsed items).
Proof.
  apply (C10_repeated_tokens lit_float32 lit_loadtxt (fsB repeated_txt) disk
           "s2" "/data" "/out" 2 w0 (Str.readlines repeated_txt)
           repeated_parsed).
  - exists repeated_txt. split; [vm_compute; reflexivity|].
    split; [reflexivity|]. apply for_each_Forall2. vm_compute. reflexivity.
  - writable_under_out "/out/s2".
Defined.

Definition moved_json (x : float) : json :=
  JArray [JArray [JNumber one; JNumber zero; JNumber zero; JNumber x];
          JArray [JNumber zero; JNumber one; JNumber zero; JNumber zero];
          JArray [JNumber zero; JNumber zero; JNumber one; JNumber zero];
          JArray [JNumber zero; JNumber zero; JNumber zero; JNumber one]].

(** Both elements named [f1] have the pose of the third line. *)
Example repeated_token_manifest :
  prepare_test_scene lit_float32 (fsB repeated_txt) disk
    "s2" "/data" "/out" 1 w0
  = ({| stdout := ["preparing s2"]; made := {["/out"; "/out/s2"]};
        dumped := {["/out/s2/info.json" :=
          JObject
            [("dataset", JString "sample");
             ("path", JString "/data");
             ("scene", JString "s2");
             ("frames", JArray
                [JObject [("file_name_image", JString "/data/s2/color/f1");
                          ("intrinsics", eye3_json);
                          ("pose", moved_json two)];
                 JObject [("file_name_image", JString "/data/s2/color/f2");
                          ("intrinsics", eye3_json);
                          ("pose", eye4_json)];
                 JObject [("file_name_image", JString "/data/s2/color/f1");
                          ("intrinsics", eye3_json);
                          ("pose", moved_json two)]])]]} |},
     inr tt).
Proof. vm_compute. reflexivity. Qed.

(** What the three levels of verbosity print for the scene [s1]. *)
Example verbosity_levels :
  stdout (prepare_sample_scene lit_loadtxt fsA disk "s1" "/data" "/out" 0
            w0).1 = []
  ∧ stdout (prepare_sample_scene lit_loadtxt fsA disk "s1" "/data" "/out" 1
              w0).1
    = ["preparing s1"]
  ∧ stdout (prepare_sample_scene lit_loadtxt fsA disk "s1" "/data" "/out" 2
              w0).1
    = ["preparing s1"; "preparing s1 frame 0/3"].
Proof. repeat split; vm_compute; reflexivity. Qed.

(** ** The further properties on concrete scenes *)

(** X3 on the scene [s1]: three files, one pose with a NaN, two frames. *)
Lemma frames_counted_witness :
  ∃ records doc items,
    candidates lit_float32 lit_loadtxt fsA PerFrameFiles "s1" "/data"
      = inr records
    ∧ dumped (prepare lit_float32 lit_loadtxt fsA disk PerFrameFiles
                "s1" "/data" "/out" 2 w0).1 !! info_json "/out" "s1"
      = Some doc
    ∧ manifest doc "/data" "s1" (filter (λ f, valid f = true) records)
    ∧ json_get "frames" doc = Some (JArray items)
    ∧ (length items + length (filter (λ f, valid f = false) records)
       = length records)%nat
    ∧ ∃ names,
        listings fsA !! OsPath.join "/data" ["s1"; "color"] = Some names
        ∧ length records = length names.
Proof.
  apply (frames_counted lit_float32 lit_loadtxt fsA disk PerFrameFiles
           "s1" "/data" "/out" 2 w0).
  vm_compute. reflexivity.
Defined.

(** X4 on the scene [s1]. *)
Lemma sample_frames_as_loaded_witness :
  ∃ intr records doc items,
    np_loadtxt lit_loadtxt fsA (OsPath.join "/data" ["s1"; "intrinsics.txt"])
      = inr intr
    ∧ sample_candidates lit_loadtxt fsA "s1" "/data" = inr records
    ∧ dumped (prepare_sample_scene lit_loadtxt fsA disk "s1" "/data" "/out" 2
                w0).1 !! info_json "/out" "s1"
      = Some doc
    ∧ manifest doc "/data" "s1" (filter (λ f, valid f = true) records)
    ∧ json_get "frames" doc = Some (JArray items)
    ∧ Forall (λ item,
          (∃ j, json_get "intrinsics" item = Some j ∧ holds j intr)
          ∧ ∃ frame_id P j,
              json_get "file_name_image" item
              = Some (JString (sample_image "s1" "/data" frame_id))
              ∧ np_loadtxt lit_loadtxt fsA
                  (sample_pose_file "s1" "/data" frame_id) = inr P
              ∧ json_get "pose" item = Some j ∧ holds j P) items.
Proof.
  apply (sample_frames_as_loaded lit_float32 lit_loadtxt fsA disk
           "s1" "/data" "/out" 2 w0).
  vm_compute. reflexivity.
Defined.

(** X5 on the pose table of two lines. *)
Lemma test_frames_shape_witness :
  ∃ records doc items,
    test_candidates lit_float32 (fsB two_lines_txt) "s2" "/data" = inr records
    ∧ dumped (prepare_test_scene lit_float32 (fsB two_lines_txt) disk
                "s2" "/data" "/out" 2 w0).1 !! info_json "/out" "s2"
      = Some doc
    ∧ manifest doc "/data" "s2" (filter (λ f, valid f = true) records)
    ∧ json_get "frames" doc = Some (JArray items)
    ∧ Forall (λ item,
          (∃ K, json_get "intrinsics" item = Some (json_rows K)
             ∧ shape 3 3 K)
          ∧ ∃ rows, json_get "pose" item = Some (json_rows rows)
              ∧ shape 4 4 rows
              ∧ last rows = Some [zero; zero; zero; one]) items.
Proof.
  apply (test_frames_shape lit_float32 lit_loadtxt (fsB two_lines_txt) disk
           "s2" "/data" "/out" 2 w0).
  vm_compute. reflexivity.
Defined.

(** X6 on a scene without [pose.txt], on a pose table with a short line,
    and on a scene whose manifest cannot be written. *)
Lemma no_lookup_error_witness :
  ((∀ k, FileNotFoundError "/data/s2/pose.txt" ≠ KeyError k)
   ∧ FileNotFoundError "/data/s2/pose.txt" ≠ IndexError
   ∧ (∀ v, FileNotFoundError "/data/s2/pose.txt" ≠ UnboundLocalError v))
  ∧ ((∀ k, ValueError ≠ KeyError k) ∧ ValueError ≠ IndexError
     ∧ (∀ v, ValueError ≠ UnboundLocalError v))
  ∧ ((∀ k, OSError FileNotFound "" ≠ KeyError k)
     ∧ OSError FileNotFound "" ≠ IndexError
     ∧ (∀ v, OSError FileNotFound "" ≠ UnboundLocalError v)).
Proof.
  split; [|split].
  - apply (no_lookup_error lit_float32 lit_loadtxt fs_nothing
             disk PoseTable "s2" "/data" "/out" 2 w0
             (prepare lit_float32 lit_loadtxt fs_nothing disk PoseTable
                "s2" "/data" "/out" 2 w0).1).
    vm_compute. reflexivity.
  - apply (no_lookup_error lit_float32 lit_loadtxt
             (fsB short_line) disk PoseTable "s2" "/data" "/out" 2 w0
             (prepare lit_float32 lit_loadtxt (fsB short_line) disk PoseTable
                "s2" "/data" "/out" 2 w0).1).
    vm_compute. reflexivity.
  - apply (no_lookup_error lit_float32 lit_loadtxt
             fs_flat disk PoseTable "" "/data" "" 2 w0
             (prepare lit_float32 lit_loadtxt fs_flat disk PoseTable
                "" "/data" "" 2 w0).1).
    vm_compute. reflexivity.
Defined.

(** X9 on the scene given as [/data/s1]. *)
Lemma absolute_scene_ignores_path_meta_witness :
  prepare lit_float32 lit_loadtxt fsA disk PerFrameFiles
      "/data/s1" "/mnt" "/out" 2 w0
    = prepare lit_float32 lit_loadtxt fsA disk PerFrameFiles
        "/data/s1" "/mnt" "/elsewhere" 2 w0
  ∧ info_json "/out" "/data/s1" = OsPath.join "/data/s1" ["info.json"]
  ∧ info_dir "/out" "/data/s1" = "/data/s1".
Proof.
  apply (absolute_scene_ignores_path_meta lit_float32 lit_loadtxt fsA disk
           PerFrameFiles "/data/s1" "/mnt" "/out" "/elsewhere" 2 w0).
  reflexivity.
Defined.

(** With the scene given as [/data/s1], the manifest lands in the source
    tree although [path_meta] is [/out]. *)
Example absolute_scene_manifest_place :
  dumped (prepare_sample_scene lit_loadtxt fsA disk "/data/s1" "/mnt" "/out" 0
            w0).1 !! "/data/s1/info.json"
  = Some (json_of_data "/mnt" "/data/s1" [frame_1; frame_10])
  ∧ dumped (prepare_sample_scene lit_loadtxt fsA disk "/data/s1" "/mnt" "/out"
              0 w0).1 !! "/out/data/s1/info.json" = None.
Proof. split; vm_compute; reflexivity. Qed.

Definition two_lines_parsed : list (string * ndarray * ndarray) :=
  [("f1", eye3, eye4); ("f2", diag221, eye4)].

(** X10 on the pose table of two lines. *)
Lemma distinct_tokens_own_pose_witness :
  ∃ w' doc items,
    prepare_test_scene lit_float32 (fsB two_lines_txt) disk
      "s2" "/data" "/out" 2 w0
      = (w', inr tt)
    ∧ dumped w' !! info_json "/out" "s2" = Some doc
    ∧ json_get "frames" doc = Some (JArray items)
    ∧ Forall2 (λ x item,
          json_get "file_name_image" item
          = Some (JString (OsPath.join "/data" ["s2"; "color"; token_of x]))
          ∧ ∃ j, json_get "pose" item = Some j ∧ holds j (pose_of x))
        (filter (λ x, all_isfinite (pose_of x) = true) two_lines_parsed)
        items.
Proof.
  apply (distinct_tokens_own_pose lit_float32 lit_loadtxt (fsB two_lines_txt)
           disk "s2" "/data" "/out" 2 w0 (Str.readlines two_lines_txt)
           two_lines_parsed).
  - exists two_lines_txt. split; [vm_compute; reflexivity|].
    split; [reflexivity|]. apply for_each_Forall2. vm_compute. reflexivity.
  - apply (bool_decide_unpack _). vm_compute. exact I.
  - writable_under_out "/out/s2".
Defined.

(** X11 on the identifier 12 and the extension [jpg]. *)
Lemma color_name_round_trip_witness :
  PyInt.int (OsPath.splitext (PyInt.fmt_08d 12 +:+ String "." "jpg")).1
    = Some 12
  ∧ ∀ frame_id,
      PyInt.int (OsPath.splitext (PyInt.fmt_08d 12 +:+ ".jpg")).1
        = Some frame_id →
      sample_image "s1" "/data" frame_id
      = OsPath.join "/data" ["s1"; "color"; PyInt.fmt_08d 12 +:+ ".jpg"].
Proof.
  apply (color_name_round_trip 12 "jpg" "s1" "/data"). reflexivity.
Defined.

(** A file that is not named with eight digits gets an image path that is
    not its own: [12.jpg] is recorded as [00000012.jpg]. *)
Example short_name_is_padded :
  PyInt.int (OsPath.splitext "12.jpg").1 = Some 12
  ∧ sample_image "s1" "/data" 12 = "/data/s1/color/00000012.jpg"
  ∧ PyInt.int (OsPath.splitext "-0000005.png").1 = Some (-5)
  ∧ PyInt.fmt_08d (-5) = "-0000005".
Proof. repeat split; vm_compute; reflexivity. Qed.

Definition unfinished_txt : string := line_f1 +:+ nl +:+ line_f2.

(** X12 on a pose table whose second line has no newline. *)
Lemma final_newline_makes_no_difference_witness :
  prepare_test_scene lit_float32 (fsB (unfinished_txt +:+ nl)) disk
    "s2" "/data" "/out" 2 w0
  = prepare_test_scene lit_float32 (fsB unfinished_txt) disk
      "s2" "/data" "/out" 2 w0.
Proof.
  apply (final_newline_makes_no_difference lit_float32 (fsB unfinished_txt)
           (fsB (unfinished_txt +:+ nl)) disk "s2" "/data" "/out" 2 w0
           unfinished_txt).
  - vm_compute. reflexivity.
  - vm_compute. reflexivity.
  - discriminate.
  - vm_compute. reflexivity.
Defined.




(** A path that is nothing and a path that is a directory are the same to
    [files], not to [open]: the runs end with different exceptions. *)
Definition fs_intrinsics_dir : filesystem :=
  {| files := ∅;
     listings := list_to_map [("/data/s1/intrinsics.txt", [])] |}.

Example missing_or_directory :
  files fs_nothing !! "/data/s1/intrinsics.txt"
    = files fs_intrinsics_dir !! "/data/s1/intrinsics.txt"
  ∧ (prepare_sample_scene lit_loadtxt fs_nothing disk "s1" "/data" "/out" 0
       w0).2
    = inl (FileNotFoundError "/data/s1/intrinsics.txt")
  ∧ (prepare_sample_scene lit_loadtxt fs_intrinsics_dir disk "s1" "/data"
       "/out" 0 w0).2
    = inl (IsADirectoryError "/data/s1/intrinsics.txt").
Proof. repeat split; vm_compute; reflexivity. Qed.


(** X15 on the scene [s1], written under [/out] and under [/elsewhere]. *)
Lemma path_meta_only_places_manifest_witness :
  stdout (prepare lit_float32 lit_loadtxt fsA disk PerFrameFiles
            "s1" "/data" "/out" 2 w0).1
  = stdout (prepare lit_float32 lit_loadtxt fsA disk PerFrameFiles
              "s1" "/data" "/elsewhere" 2 w0).1
  ∧ ∃ doc,
      dumped (prepare lit_float32 lit_loadtxt fsA disk PerFrameFiles
                "s1" "/data" "/out" 2 w0).1 !! info_json "/out" "s1"
        = Some doc
      ∧ dumped (prepare lit_float32 lit_loadtxt fsA disk PerFrameFiles
                  "s1" "/data" "/elsewhere" 2 w0).1
          !! info_json "/elsewhere" "s1"
        = Some doc.
Proof.
  apply (path_meta_only_places_manifest lit_float32 lit_loadtxt fsA disk
           PerFrameFiles "s1" "/data" "/out" "/elsewhere" 2 w0).
  - vm_compute. reflexivity.
  - vm_compute. reflexivity.
Defined.
